(** * Anomaly detection pipeline of [stockanomalydetectionapp/anomalydetection.py]

    A shallow embedding of the per-event pipeline ([process_trade] and the
    three detectors it calls) together with the properties of it that the
    specification states.

    Numbers.  A number held in a record, a history or the corpus is embedded
    by its exact value, a rational [Q]; comparisons of numbers are exact, as
    they are in Python.  The subtraction and the true division of the price
    rule are operations of the Python runtime: they round to binary64 and
    raise OverflowError for an int too large for a float, so they are taken
    from the interface [Libraries], like the calls into numpy and the
    estimator, and may return an infinity, nan, or raise.  What numpy returns
    where Python would raise (a division by zero gives nan or an infinity
    and a RuntimeWarning) is kept, see [npfloat] and [np_divide].  The mean
    and the standard deviation of numpy are total functions of the corpus
    here; numpy can raise OverflowError on an int beyond the range of a
    float, so the retrain cadence is stated for a corpus within the bound
    [fits_int64].  The estimator is a value that
    [fit] replaces; [fit] works in place, so a [fit] that raises leaves
    behind the estimator [fit_interrupted] names, of which nothing is known.

    Effects.  The module-level objects the functions mutate form the record
    [state]; every function is a computation in the monad [M], which threads
    the state and may raise a Python exception.  A raised exception keeps the
    mutations made before it, as in-place mutation does in Python.  Calls
    that leave the module (print, producer.produce, IsolationForest.fit,
    decision_function, numpy warnings) are appended to [trace]. *)

From Stdlib Require Import QArith Qabs Ascii Lqa.
From stdpp Require Import gmap strings list fin_maps.

(** ** Values *)

(** A field of a decoded trade record: a JSON number or a JSON string.
    The other JSON values (null, booleans, arrays, nested objects) are
    outside the model. *)
Inductive value :=
  | VNum (q : Q)
  | VStr (s : string).

(** What a payload is, or decodes to: a dict, a number or a str. *)
Inductive pyobj :=
  | PyDict (d : gmap string value)
  | PyNum (q : Q)
  | PyStr (s : string).

(** Hash keys.  Python hashes equal numbers alike (1 == 1.0), so a number is
    keyed by its reduced fraction. *)
Inductive key :=
  | KNum (n : Z) (d : positive)
  | KStr (s : string).

Global Instance key_eq_dec : EqDecision key.
Proof. solve_decision. Defined.

Global Instance key_countable : Countable key.
Proof.
  refine (inj_countable'
    (λ k, match k with KNum n d => inl (n, d) | KStr s => inr s end)
    (λ x, match x with inl (n, d) => KNum n d | inr s => KStr s end) _).
  by intros [].
Defined.

Definition key_of (v : value) : key :=
  match v with
  | VNum q => let r := Qred q in KNum (Qnum r) (Qden r)
  | VStr s => KStr s
  end.

(** A binary64 float (a Python float, a numpy float64): finite, infinite
    or nan. *)
Inductive npfloat :=
  | Finite (q : Q)
  | PosInf
  | NegInf
  | NaN.

(** What [a - b] yields on numbers: an int when both are ints, else a
    float. *)
Inductive pynumber :=
  | PyInt (n : Z)
  | PyFloat (x : npfloat).

Inductive exn :=
  | KeyError (k : string)
  | TypeError
  | ZeroDivisionError
  | OverflowError
  | ValueError
  | RecursionError
  | EstimatorError.

Inductive result (A : Type) :=
  | Ok (a : A)
  | Raise (e : exn).
Global Arguments Ok {A} a.
Global Arguments Raise {A} e.

(** What json.loads does with a text: it returns the decoded value, raises
    json.JSONDecodeError, or raises another exception (ValueError for an
    integer literal beyond the digit limit, RecursionError for a nesting too
    deep). *)
Inductive loaded :=
  | Loaded (obj : pyobj)
  | JSONDecodeError
  | LoadsRaises (e : exn).

Inductive label := HighVolume | RapidPriceChange | IsolationForestLabel.

Definition label_text (l : label) : string :=
  match l with
  | HighVolume => "High Volume"
  | RapidPriceChange => "Rapid Price Change"
  | IsolationForestLabel => "Isolation Forest"
  end.

(** The message handed to producer.produce: key str(sequence), value the
    record with its "anomalies" entry set to the labels. *)
Record message := Message {
  msg_key : value;
  msg_value : gmap string value;
  msg_anomalies : list label }.

Inductive event :=
  | PrintFailedToParse (raw : string)
  | PrintAnomalyDetected (m : message)
  | Produce (m : message)
  | DivideWarning
  | FitCall (X : list npfloat)
  | DecisionFunctionCall (x : npfloat).

(** ** Numeric helpers *)

Definition Qgtb (a b : Q) : bool := negb (Qle_bool a b).

Definition is_zero (q : Q) : bool := Qeq_bool q 0.

(** numpy true division of float64 by float64. *)
Definition np_divide (x d : Q) : npfloat :=
  if is_zero d then
    match (x ?= 0)%Q with
    | Eq => NaN
    | Gt => PosInf
    | Lt => NegInf
    end
  else Finite (x / d).

(** [score < 0] on a float64; comparisons with nan are false. *)
Definition np_negative (x : npfloat) : bool :=
  match x with
  | Finite q => Qgtb 0 q
  | NegInf => true
  | PosInf | NaN => false
  end.

(** [abs] on a float. *)
Definition float_abs (x : npfloat) : npfloat :=
  match x with
  | Finite q => Finite (Qabs q)
  | PosInf | NegInf => PosInf
  | NaN => NaN
  end.

(** [x > t] for a float [x] and a number [t]; comparisons with nan are
    false. *)
Definition float_gt (x : npfloat) (t : Q) : bool :=
  match x with
  | Finite q => Qgtb q t
  | PosInf => true
  | NegInf | NaN => false
  end.

Definition as_number (v : value) : option Q :=
  match v with
  | VNum q => Some q
  | VStr _ => None
  end.

(** The corpus as a float array; [None] when an entry is not a number. *)
Fixpoint as_numbers (l : list value) : option (list Q) :=
  match l with
  | [] => Some []
  | v :: l' =>
      match as_number v, as_numbers l' with
      | Some q, Some qs => Some (q :: qs)
      | _, _ => None
      end
  end.

(** ** Containers *)

(** [d[k]] on a [defaultdict]: a missing key is stored with the default. *)
Definition defaultdict_get {V : Type} (default : V) (k : key)
    (d : gmap key V) : V * gmap key V :=
  match d !! k with
  | Some v => (v, d)
  | None => (default, <[k := default]> d)
  end.

Definition maxlen : nat := 100.

(** [deque(maxlen=100).append]: the oldest entries leave on overflow. *)
Definition deque_append {A : Type} (x : A) (dq : list A) : list A :=
  let dq' := dq ++ [x] in
  drop (length dq' - maxlen) dq'.

(** ** Libraries the module calls *)

Class Libraries := {
  json_loads : string → loaded;
  (** [a - b] on two numbers *)
  number_sub : Q → Q → result pynumber;
  (** [x / b] on a number [x] and a number [b] that is not zero *)
  number_truediv : pynumber → Q → result npfloat;
  np_mean : list Q → Q;
  np_std : list Q → Q;
  forest : Type;
  IsolationForest : forest;
  fit : forest → list npfloat → result forest;
  (** the estimator a [fit] that raises leaves behind: it works in place *)
  fit_interrupted : forest → list npfloat → forest;
  decision_function : forest → npfloat → result npfloat }.

Section Pipeline.

Context `{LIB : Libraries}.

(** ** Module state *)

Record state := State {
  high_volume_threshold : gmap key Q;
  rapid_price_change_threshold : gmap key Q;
  transaction_history : gmap key (list value);
  fit_prices_all : list value;
  is_fitted : bool;
  isolation_forest : forest;
  processed_sequence : gset key;
  trace : list event }.

Definition initial_state : state :=
  {| high_volume_threshold := ∅;
     rapid_price_change_threshold := ∅;
     transaction_history := ∅;
     fit_prices_all := [];
     is_fitted := false;
     isolation_forest := IsolationForest;
     processed_sequence := ∅;
     trace := [] |}.

Definition default_volume_threshold : Q := 10000.
(** The float literal [0.05]: the binary64 number nearest to 5/100. *)
Definition default_price_change_threshold : Q :=
  3602879701896397 # 72057594037927936.

(** ** The monad *)

Definition M (A : Type) : Type := state → result A * state.

Definition ret {A} (a : A) : M A := λ st, (Ok a, st).

Definition raise {A} (e : exn) : M A := λ st, (Raise e, st).

Definition bind {A B} (c : M A) (k : A → M B) : M B :=
  λ st, match c st with
        | (Ok a, st') => k a st'
        | (Raise e, st') => (Raise e, st')
        end.

Notation "x <- c ;; k" := (bind c (λ x, k))
  (at level 100, c at next level, right associativity).
Notation "c ;;; k" := (bind c (λ _, k))
  (at level 100, right associativity).

Definition gets {A} (f : state → A) : M A := λ st, (Ok (f st), st).

Definition modify (f : state → state) : M unit := λ st, (Ok tt, f st).

Definition emit (e : event) : M unit :=
  modify (λ st, State (high_volume_threshold st)
                      (rapid_price_change_threshold st)
                      (transaction_history st) (fit_prices_all st)
                      (is_fitted st) (isolation_forest st)
                      (processed_sequence st) (trace st ++ [e])).

Definition set_high_volume_threshold (m : gmap key Q) (st : state) : state :=
  State m (rapid_price_change_threshold st) (transaction_history st)
        (fit_prices_all st) (is_fitted st) (isolation_forest st)
        (processed_sequence st) (trace st).

Definition set_rapid_price_change_threshold (m : gmap key Q) (st : state)
    : state :=
  State (high_volume_threshold st) m (transaction_history st)
        (fit_prices_all st) (is_fitted st) (isolation_forest st)
        (processed_sequence st) (trace st).

Definition set_transaction_history (h : gmap key (list value)) (st : state)
    : state :=
  State (high_volume_threshold st) (rapid_price_change_threshold st) h
        (fit_prices_all st) (is_fitted st) (isolation_forest st)
        (processed_sequence st) (trace st).

Definition set_fit_prices_all (l : list value) (st : state) : state :=
  State (high_volume_threshold st) (rapid_price_change_threshold st)
        (transaction_history st) l (is_fitted st) (isolation_forest st)
        (processed_sequence st) (trace st).

Definition set_fitted (f : forest) (st : state) : state :=
  State (high_volume_threshold st) (rapid_price_change_threshold st)
        (transaction_history st) (fit_prices_all st) true f
        (processed_sequence st) (trace st).

Definition set_isolation_forest (f : forest) (st : state) : state :=
  State (high_volume_threshold st) (rapid_price_change_threshold st)
        (transaction_history st) (fit_prices_all st) (is_fitted st) f
        (processed_sequence st) (trace st).

Definition set_processed_sequence (s : gset key) (st : state) : state :=
  State (high_volume_threshold st) (rapid_price_change_threshold st)
        (transaction_history st) (fit_prices_all st) (is_fitted st)
        (isolation_forest st) s (trace st).

(** ** Python operations that may raise *)

(** [trade_data[k]] on a dict. *)
Definition getitem (trade_data : gmap string value) (k : string) : M value :=
  match trade_data !! k with
  | Some v => ret v
  | None => raise (KeyError k)
  end.

(** [raw[k]] on whatever the payload decoded to. *)
Definition subscript (obj : pyobj) (k : string) : M value :=
  match obj with
  | PyDict d => getitem d k
  | PyNum _ | PyStr _ => raise TypeError
  end.

Definition number (v : value) : M Q :=
  match as_number v with
  | Some q => ret q
  | None => raise TypeError
  end.

(** What an operation of the runtime returned or raised. *)
Definition lift {A} (r : result A) : M A :=
  match r with
  | Ok a => ret a
  | Raise e => raise e
  end.

(** [a - b] *)
Definition py_sub (a b : value) : M pynumber :=
  match as_number a, as_number b with
  | Some x, Some y => lift (number_sub x y)
  | _, _ => raise TypeError
  end.

(** [x / b] *)
Definition py_div (x : pynumber) (b : Q) : M npfloat :=
  if is_zero b then raise ZeroDivisionError else lift (number_truediv x b).

(** [a > t] with [t] a number. *)
Definition py_gt (a : value) (t : Q) : M bool :=
  match as_number a with
  | Some x => ret (Qgtb x t)
  | None => raise TypeError
  end.

(** numpy division by a float64 scalar; a zero divisor warns. *)
Definition np_div_by (d : Q) : M unit :=
  if is_zero d then emit DivideWarning else ret tt.

(** ** The detectors *)

(** [high_volume_threshold[symbol]] *)
Definition lookup_high_volume_threshold (symbol : value) : M Q :=
  λ st, let '(t, m) := defaultdict_get default_volume_threshold
                         (key_of symbol) (high_volume_threshold st) in
        (Ok t, set_high_volume_threshold m st).

(** [rapid_price_change_threshold[symbol]] *)
Definition lookup_rapid_price_change_threshold (symbol : value) : M Q :=
  λ st, let '(t, m) := defaultdict_get default_price_change_threshold
                         (key_of symbol) (rapid_price_change_threshold st) in
        (Ok t, set_rapid_price_change_threshold m st).

(** [history[symbol]] *)
Definition lookup_history (symbol : value) : M (list value) :=
  λ st, let '(h, m) := defaultdict_get [] (key_of symbol)
                         (transaction_history st) in
        (Ok h, set_transaction_history m st).

(** [history[symbol].append(price)] *)
Definition history_append (symbol price : value) : M unit :=
  h <- lookup_history symbol ;;
  modify (λ st, set_transaction_history
                  (<[key_of symbol := deque_append price h]>
                     (transaction_history st)) st).

Definition high_volume_rule (trade_data : gmap string value) : M bool :=
  size <- getitem trade_data "size" ;;
  symbol <- getitem trade_data "symbol" ;;
  threshold <- lookup_high_volume_threshold symbol ;;
  py_gt size threshold.

Definition rapid_price_change (trade_data : gmap string value) : M bool :=
  symbol <- getitem trade_data "symbol" ;;
  current_price <- getitem trade_data "price" ;;
  h <- lookup_history symbol ;;
  match last h with
  | None =>
      history_append symbol current_price ;;;
      ret false
  | Some last_price =>
      diff <- py_sub current_price last_price ;;
      divisor <- number last_price ;;
      quotient <- py_div diff divisor ;;
      let price_change := float_abs quotient in
      history_append symbol current_price ;;;
      threshold <- lookup_rapid_price_change_threshold symbol ;;
      ret (float_gt price_change threshold)
  end.

(** Lines 61 to 77: what the scorer does once the price is in the corpus. *)
Definition score_price (current_price : value) : M bool :=
  fit_prices <- gets fit_prices_all ;;
  if (length fit_prices <? 100)%nat then ret false else
  match as_numbers fit_prices with
  | None => raise TypeError
  | Some xs =>
      let mean := np_mean xs in
      let std := np_std xs in
      np_div_by std ;;;
      let prices_reshaped := map (λ x, np_divide (x - mean) std) xs in
      (if (length fit_prices mod 1000 =? 0)%nat then
         emit (FitCall prices_reshaped) ;;;
         model <- gets isolation_forest ;;
         match fit model prices_reshaped with
         | Ok model' => modify (set_fitted model')
         | Raise e =>
             modify (set_isolation_forest
                       (fit_interrupted model prices_reshaped)) ;;;
             raise e
         end
       else ret tt) ;;;
      fitted <- gets is_fitted ;;
      if negb fitted then ret false else
      p <- number current_price ;;
      np_div_by std ;;;
      let current_price_normalized := np_divide (p - mean) std in
      emit (DecisionFunctionCall current_price_normalized) ;;;
      model <- gets isolation_forest ;;
      match decision_function model current_price_normalized with
      | Ok score => ret (np_negative score)
      | Raise e => raise e
      end
  end.

Definition isolation_forest_anomaly (trade_date : gmap string value)
    : M bool :=
  current_price <- getitem trade_date "price" ;;
  modify (λ st, set_fit_prices_all (fit_prices_all st ++ [current_price]) st) ;;;
  score_price current_price.

(** ** The orchestrator *)

Definition when_label (b : bool) (l : label) : list label :=
  if b then [l] else [].

(** Lines 110 to 120: a trade with labels is printed and published. *)
Definition publish (trade_data : gmap string value) (sequence : value)
    (anomalies : list label) : M unit :=
  match anomalies with
  | [] => ret tt
  | _ =>
      let m := Message sequence (delete "anomalies" trade_data) anomalies in
      emit (PrintAnomalyDetected m) ;;;
      emit (Produce m)
  end.

(** Lines 94 to 120: the detectors and the publication of their labels. *)
Definition detect (trade_data : gmap string value) (sequence : value)
    : M unit :=
  hv <- high_volume_rule trade_data ;;
  rp <- rapid_price_change trade_data ;;
  ifa <- isolation_forest_anomaly trade_data ;;
  publish trade_data sequence
    (when_label hv HighVolume
     ++ when_label rp RapidPriceChange
     ++ when_label ifa IsolationForestLabel).

(** Lines 87 to 120: what follows a successful decode. *)
Definition process_decoded (trade_data : pyobj) : M unit :=
  sequence <- subscript trade_data "sequence" ;;
  seen <- gets processed_sequence ;;
  if decide (key_of sequence ∈ seen) then ret tt else
  modify (set_processed_sequence ({[key_of sequence]} ∪ seen)) ;;;
  match trade_data with
  | PyDict d => detect d sequence
  | PyNum _ | PyStr _ => raise TypeError
  end.

Definition process_trade (raw_trade_data : pyobj) : M unit :=
  match raw_trade_data with
  | PyStr s =>
      match json_loads s with
      | Loaded trade_data => process_decoded trade_data
      | JSONDecodeError => emit (PrintFailedToParse s)
      | LoadsRaises e => raise e
      end
  | PyDict _ | PyNum _ => process_decoded raw_trade_data
  end.

(** What a payload decodes to, if it does. *)
Definition decode (raw_trade_data : pyobj) : option pyobj :=
  match raw_trade_data with
  | PyStr s =>
      match json_loads s with
      | Loaded trade_data => Some trade_data
      | JSONDecodeError | LoadsRaises _ => None
      end
  | PyDict _ | PyNum _ => Some raw_trade_data
  end.

(** The field [k] of the record a payload decodes to. *)
Definition field (k : string) (raw_trade_data : pyobj) : option value :=
  match decode raw_trade_data with
  | Some (PyDict d) => d !! k
  | _ => None
  end.

Definition has_key (k : string) (d : gmap string value) : bool :=
  match d !! k with
  | Some _ => true
  | None => false
  end.

(** A record with the four fields of the input contract. *)
Definition well_formed_record (d : gmap string value) : bool :=
  has_key "sequence" d && has_key "symbol" d
  && has_key "price" d && has_key "size" d.

(** A payload that does not decode to such a record. *)
Definition malformed (raw_trade_data : pyobj) : bool :=
  match decode raw_trade_data with
  | Some (PyDict d) => negb (well_formed_record d)
  | _ => true
  end.

(** The sample counts at which the scorer refits: the multiples of 1000
    (that they are at least 100 is the warm-up gate before the test). *)
Definition refit_due (n : nat) : bool :=
  (100 <=? n)%nat && (n mod 1000 =? 0)%nat.

(** The stream: payloads handed to [process_trade] one after the other. *)
Definition run (raws : list pyobj) (st : state) : state :=
  foldl (λ st raw, (process_trade raw st).2) st raws.

(** ** Observations on a state *)

(** The messages published so far. *)
Fixpoint produced (t : list event) : list message :=
  match t with
  | [] => []
  | Produce m :: t' => m :: produced t'
  | _ :: t' => produced t'
  end.

Definition is_produce (e : event) : bool :=
  match e with
  | Produce _ => true
  | _ => false
  end.

(** How often the model has been handed to [fit]. *)
Fixpoint fit_calls (t : list event) : nat :=
  match t with
  | [] => 0
  | FitCall _ :: t' => S (fit_calls t')
  | _ :: t' => fit_calls t'
  end.

(** The threshold the High-Volume rule reads for a symbol. *)
Definition volume_threshold (st : state) (k : key) : Q :=
  default default_volume_threshold (high_volume_threshold st !! k).

(** The threshold the Rapid-Price-Change rule reads for a symbol. *)
Definition price_change_threshold (st : state) (k : key) : Q :=
  default default_price_change_threshold
          (rapid_price_change_threshold st !! k).

(** The prices recorded for a symbol, oldest first. *)
Definition history_of (st : state) (k : key) : list value :=
  default [] (transaction_history st !! k).

(** A number within the range of int64, where numpy holds ints and floats
    alike in machine numbers and its sums cannot overflow. *)
Definition fits_int64 (x : Q) : Prop :=
  (Qabs x < 9223372036854775808)%Q.

(** ** Frames and steps

    [keeps R c]: from any state, [c] ends in a state related to it by [R],
    whether it returns or raises. *)

Definition keeps {A} (R : relation state) (c : M A) : Prop :=
  ∀ st, R st (c st).2.

(** Two states agree on the observation [f]. *)
Definition same {X} (f : state → X) : relation state :=
  λ st st', f st' = f st.

(** Once fitted, still fitted. *)
Definition stays_fitted : relation state :=
  λ st st', is_fitted st = true → is_fitted st' = true.

(** What the detectors and the publication may do to the state. *)
Record tolerant (R : relation state) : Prop := Tolerant {
  tolerant_volume : ∀ k t st,
    R st (set_high_volume_threshold
            (<[k := t]> (high_volume_threshold st)) st);
  tolerant_change : ∀ k t st,
    R st (set_rapid_price_change_threshold
            (<[k := t]> (rapid_price_change_threshold st)) st);
  tolerant_corpus : ∀ l st, R st (set_fit_prices_all l st);
  tolerant_fitted : ∀ f st,
    R st (set_fitted f st) ∧ R st (set_isolation_forest f st);
  tolerant_emit : ∀ e, keeps R (emit e) }.

(** The state once the rule has recorded [price] after history [h]. *)
Definition recorded (symbol price : value) (h : list value) st : state :=
  set_transaction_history
    (<[key_of symbol := deque_append price h]> (transaction_history st)) st.

(** The trace of one division by the standard deviation [std]. *)
Definition division_trace (std : Q) : list event :=
  if is_zero std then [DivideWarning] else [].

(** The messages published by one step: none, or one. *)
Definition at_most_one_more (st st' : state) : Prop :=
  produced (trace st') = produced (trace st)
  ∨ ∃ m, produced (trace st') = produced (trace st) ++ [m].

(** ** Invariants of the stream *)

(** No history is longer than the deque allows. *)
Definition histories_bounded (st : state) : Prop :=
  ∀ k h, transaction_history st !! k = Some h → length h ≤ maxlen.

(** A model is fitted only once the corpus holds 1000 samples. *)
Definition fitted_late (st : state) : Prop :=
  is_fitted st = true → 1000 ≤ length (fit_prices_all st).

(** A step keeps the invariant [I]. *)
Definition preserves (I : state → Prop) : relation state :=
  λ st st', I st → I st'.

(** The trace has grown, by events that publish nothing. *)
Definition quiet_extension (st st' : state) : Prop :=
  ∃ t, trace st' = trace st ++ t ∧ produced t = [].

(** The first field a record lacks, in the order the pipeline reads them. *)
Definition first_missing (d : gmap string value) : option string :=
  if negb (has_key "sequence" d) then Some "sequence"
  else if negb (has_key "size" d) then Some "size"
  else if negb (has_key "symbol" d) then Some "symbol"
  else if negb (has_key "price" d) then Some "price"
  else None.

(** The labels in the order the detectors run. *)
Definition all_labels : list label :=
  [HighVolume; RapidPriceChange; IsolationForestLabel].

End Pipeline.

Global Arguments state {LIB}.
Global Arguments State {LIB}.

(** ** An instance of the libraries

    Enough of json, the arithmetic of the runtime, numpy and the estimator
    to run the pipeline on concrete payloads: [json_loads] decodes the
    integer literals of JSON up to the digit limit of int, raises ValueError
    beyond it and rejects every other text (it stands for json.loads on
    integer literals and on texts that are not JSON); subtraction and true
    division round to the nearest binary64, ties to even, a number of
    integral value counting as an int; the standard deviation is rounded
    down to six decimals, and the estimator scores a normalized price [x] as
    [2 - |x|] and rejects what is not finite. *)
Module Sample.

Fixpoint digits (s : string) (acc : Z) : option Z :=
  match s with
  | EmptyString => Some acc
  | String c s' =>
      let n := (Z.of_N (Ascii.N_of_ascii c) - 48)%Z in
      if ((0 <=? n) && (n <=? 9))%Z then digits s' (10 * acc + n)%Z else None
  end.

(** Digits without a leading zero, as JSON writes a natural number. *)
Definition unsigned (s : string) : option Z :=
  match s with
  | EmptyString => None
  | String "0"%char EmptyString => Some 0%Z
  | String "0"%char _ => None
  | _ => digits s 0
  end.

(** The number of digits int() converts from text. *)
Definition max_str_digits : nat := 4300.

Definition literal (sign : Z) (s : string) : loaded :=
  match unsigned s with
  | Some z =>
      if (max_str_digits <? String.length s)%nat then LoadsRaises ValueError
      else Loaded (PyNum (inject_Z (sign * z)))
  | None => JSONDecodeError
  end.

Definition loads (s : string) : loaded :=
  match s with
  | String "-"%char s' => literal (-1) s'
  | _ => literal 1 s
  end.

(** [num / den] rounded to the nearest integer, ties to even. *)
Definition round_half_even (num den : Z) : Z :=
  let m := (num / den)%Z in
  match (2 * (num mod den) ?= den)%Z with
  | Lt => m
  | Gt => (m + 1)%Z
  | Eq => if Z.even m then m else (m + 1)%Z
  end.

(** The exponent [e] with [2^e <= n/d < 2^(e+1)], for [n] positive. *)
Definition floor_log2 (n : Z) (d : positive) : Z :=
  let e := (Z.log2 n - Z.log2 (Z.pos d))%Z in
  let below :=
    if (0 <=? e)%Z then (n <? Z.pos d * 2 ^ e)%Z
    else (n * 2 ^ (- e) <? Z.pos d)%Z in
  if below then (e - 1)%Z else e.

(** [m * 2^k] *)
Definition scaled (m k : Z) : Q :=
  if (0 <=? k)%Z then inject_Z (m * 2 ^ k)
  else Qred (m # Z.to_pos (2 ^ (- k))).

(** The binary64 float nearest to [q], ties to even; what is too large
    becomes an infinity. *)
Definition round64 (q : Q) : npfloat :=
  let n := Z.abs (Qnum q) in
  let d := Qden q in
  if (n =? 0)%Z then Finite 0 else
  let e := Z.max (floor_log2 n d) (-1022) in
  let k := (e - 52)%Z in
  let m :=
    if (0 <=? k)%Z then round_half_even n (Z.pos d * 2 ^ k)
    else round_half_even (n * 2 ^ (- k)) (Z.pos d) in
  let negative := (Qnum q <? 0)%Z in
  if ((1024 <=? e) || (2 ^ 1024 <=? m * 2 ^ k))%Z
  then (if negative then NegInf else PosInf)
  else Finite (scaled (if negative then - m else m) k).

(** float(x) for a number [x]. *)
Definition to_float (q : Q) : result Q :=
  match round64 q with
  | Finite x => Ok x
  | PosInf | NegInf | NaN => Raise OverflowError
  end.

(** A number of integral value counts as an int. *)
Definition classify (q : Q) : pynumber :=
  let r := Qred q in
  if (Z.pos (Qden r) =? 1)%Z then PyInt (Qnum r) else PyFloat (round64 q).

Definition float_of (x : pynumber) : result npfloat :=
  match x with
  | PyInt n =>
      match to_float (inject_Z n) with
      | Ok y => Ok (Finite y)
      | Raise e => Raise e
      end
  | PyFloat y => Ok y
  end.

Definition float_sub (x y : npfloat) : npfloat :=
  match x, y with
  | Finite a, Finite b => round64 (a - b)
  | NaN, _ | _, NaN => NaN
  | PosInf, PosInf | NegInf, NegInf => NaN
  | PosInf, _ | _, NegInf => PosInf
  | NegInf, _ | _, PosInf => NegInf
  end.

(** [x / y] on floats, [y] finite and not zero. *)
Definition float_div (x : npfloat) (y : Q) : npfloat :=
  match x with
  | Finite a => round64 (a / y)
  | PosInf => if Qle_bool 0 y then PosInf else NegInf
  | NegInf => if Qle_bool 0 y then NegInf else PosInf
  | NaN => NaN
  end.

(** [a - b]: exact on two ints, else both operands become floats. *)
Definition sub (a b : Q) : result pynumber :=
  match classify a, classify b with
  | PyInt x, PyInt y => Ok (PyInt (x - y))
  | x, y =>
      match float_of x, float_of y with
      | Ok fx, Ok fy => Ok (PyFloat (float_sub fx fy))
      | Raise e, _ | _, Raise e => Raise e
      end
  end.

(** [x / b]: the rounded quotient on two ints, which must fit a float;
    else both operands become floats. *)
Definition truediv (x : pynumber) (b : Q) : result npfloat :=
  match x, classify b with
  | PyInt n, PyInt d =>
      if (d =? 0)%Z then Raise ZeroDivisionError else
      match round64 (inject_Z n / inject_Z d) with
      | Finite c => Ok (Finite c)
      | PosInf | NegInf | NaN => Raise OverflowError
      end
  | _, y =>
      match float_of x, float_of y with
      | Ok fx, Ok (Finite d) =>
          if is_zero d then Raise ZeroDivisionError
          else Ok (float_div fx d)
      | Ok _, Ok _ => Ok NaN
      | Raise e, _ | _, Raise e => Raise e
      end
  end.

Definition Qsum (xs : list Q) : Q := foldr Qplus 0%Q xs.

Definition mean (xs : list Q) : Q :=
  Qred (Qsum xs / inject_Z (Z.of_nat (length xs))).

Definition variance (xs : list Q) : Q :=
  let m := mean xs in
  Qred (Qsum (map (λ x, (x - m) * (x - m))%Q xs)
        / inject_Z (Z.of_nat (length xs))).

Definition Qsqrt (q : Q) : Q :=
  Qred (Z.sqrt (Qnum q * 10 ^ 12 / Z.pos (Qden q)) # 10 ^ 6).

Definition std (xs : list Q) : Q := Qsqrt (variance xs).

Definition finite (x : npfloat) : bool :=
  match x with
  | Finite _ => true
  | _ => false
  end.

Definition fit_sample (_ : list npfloat) (X : list npfloat)
    : result (list npfloat) :=
  if forallb finite X then Ok X else Raise EstimatorError.

Definition score_sample (_ : list npfloat) (x : npfloat) : result npfloat :=
  match x with
  | Finite q => Ok (Finite (2 - Qabs q))
  | _ => Raise EstimatorError
  end.

Definition libraries : Libraries :=
  {| json_loads := loads;
     number_sub := sub;
     number_truediv := truediv;
     np_mean := mean;
     np_std := std;
     forest := list npfloat;
     IsolationForest := [];
     fit := fit_sample;
     fit_interrupted := λ model _, model;
     decision_function := score_sample |}.

(** A trade record with the four fields of the input contract. *)
Definition trade (sequence : Z) (symbol : string) (price size : Q)
    : gmap string value :=
  {[ "sequence" := VNum (inject_Z sequence);
     "symbol" := VStr symbol;
     "price" := VNum price;
     "size" := VNum size ]}.

Definition start : state := initial_state (LIB := libraries).

Definition process (raw : pyobj) : M unit := process_trade (LIB := libraries) raw.

Definition feed (raws : list pyobj) (st : state) : state :=
  run (LIB := libraries) raws st.

(** The state after a first trade of symbol X at price 0. *)
Definition after_zero_price : state := feed [PyDict (trade 1 "X" 0 1)] start.

(** The state after a first trade of symbol X at price 100. *)
Definition after_first_trade : state :=
  feed [PyDict (trade 1 "X" 100 50)] start.

(** A state whose corpus holds [n] times the price 5. *)
Definition constant_corpus (n : nat) : state :=
  set_fit_prices_all (replicate n (VNum 5)) start.

(** A state whose corpus holds [n] prices, 4 and 6 in turn. *)
Definition alternating_corpus (n : nat) : state :=
  set_fit_prices_all
    (map (λ i, VNum (if Nat.even i then 4 else 6)) (seq 0 n)) start.

(** The numbers in the corpus of [alternating_corpus 999] and a price 6. *)
Definition alternating_numbers : list Q :=
  map (λ i, if Nat.even i then 4%Q else 6%Q) (seq 0 999) ++ [6%Q].

(** A state whose corpus holds [n] prices, 4 and 6 in turn, and whose
    model counts as fitted. *)
Definition fitted_corpus (n : nat) : state :=
  set_fitted (LIB := libraries) [] (alternating_corpus n).

(** The float a decimal literal denotes. *)
Definition float_literal (q : Q) : Q :=
  match round64 q with
  | Finite x => x
  | PosInf | NegInf | NaN => 0
  end.

(** The state after a first trade of symbol X at price 2 * 10^18. *)
Definition after_large_trade : state :=
  feed [PyDict (trade 1 "X" 2000000000000000000 1)] start.

(** The state after a first trade of symbol X at price 7.21. *)
Definition after_decimal_trade : state :=
  feed [PyDict (trade 1 "X" (float_literal (721 # 100)) 1)] start.

(** A state whose corpus holds a price that is text, then [n] times the
    price 5. *)
Definition text_corpus (n : nat) : state :=
  set_fit_prices_all (VStr "n/a" :: replicate n (VNum 5)) start.

(** An integer literal of [n] digits. *)
Fixpoint ones (n : nat) : string :=
  match n with
  | O => EmptyString
  | S n' => String "1"%char (ones n')
  end.

(** A record whose price is text. *)
Definition text_price_trade (sequence : Z) (symbol price : string)
    : gmap string value :=
  {[ "sequence" := VNum (inject_Z sequence);
     "symbol" := VStr symbol;
     "price" := VStr price;
     "size" := VNum 1 ]}.

End Sample.


(** * Properties *)

Section Properties.

Context `{LIB : Libraries}.

Implicit Types (st : state) (d : gmap string value) (raw : pyobj).

Local Arguments Nat.modulo : simpl never.
Local Arguments Nat.ltb : simpl never.
Local Arguments Nat.eqb : simpl never.

(** ** Numbers and containers *)

Lemma Qgtb_true (a b : Q) : Qgtb a b = true ↔ (b < a)%Q.
Proof.
  unfold Qgtb. rewrite negb_true_iff, <- not_true_iff_false, Qle_bool_iff.
  split; [apply Qnot_le_lt | apply Qlt_not_le].
Qed.

Lemma Qgtb_false (a b : Q) : Qgtb a b = false ↔ (a <= b)%Q.
Proof. unfold Qgtb. rewrite negb_false_iff. apply Qle_bool_iff. Qed.

Lemma Qgtb_eq (a b : Q) : (a == b)%Q → Qgtb a b = false.
Proof. intros E. apply Qgtb_false. rewrite E. apply Qle_refl. Qed.

Lemma is_zero_true (q : Q) : is_zero q = true ↔ (q == 0)%Q.
Proof. apply Qeq_bool_iff. Qed.

Lemma is_zero_false (q : Q) : is_zero q = false ↔ ¬ (q == 0)%Q.
Proof. by rewrite <- is_zero_true, not_true_iff_false. Qed.

Lemma defaultdict_get_value {V} (dflt : V) (k : key) (m : gmap key V) :
  (defaultdict_get dflt k m).1 = default dflt (m !! k).
Proof. unfold defaultdict_get. by destruct (m !! k). Qed.

Lemma defaultdict_get_present {V} (dflt : V) (k : key) (m : gmap key V) :
  is_Some (m !! k) → (defaultdict_get dflt k m).2 = m.
Proof. intros [v E]. unfold defaultdict_get. by rewrite E. Qed.

Lemma defaultdict_get_lookup {V} (dflt : V) (k k' : key) (m : gmap key V) :
  default dflt ((defaultdict_get dflt k m).2 !! k') = default dflt (m !! k').
Proof.
  unfold defaultdict_get. destruct (m !! k) eqn:E; [done |]. simpl.
  destruct (decide (k = k')) as [<- | N].
  - by rewrite lookup_insert_eq, E.
  - by rewrite lookup_insert_ne.
Qed.

Lemma insert_defaultdict_get {V} (dflt v : V) (k : key) (m : gmap key V) :
  <[k := v]> (defaultdict_get dflt k m).2 = <[k := v]> m.
Proof.
  unfold defaultdict_get. destruct (m !! k); [done |].
  simpl. by rewrite insert_insert_eq.
Qed.

Lemma as_numbers_length (l : list value) (xs : list Q) :
  as_numbers l = Some xs → length xs = length l.
Proof.
  revert xs. induction l as [| v l IH]; intros xs; simpl.
  - by intros [= <-].
  - destruct (as_number v); [| done].
    destruct (as_numbers l) as [qs |]; [| done].
    intros [= <-]. simpl. by rewrite (IH qs).
Qed.

(** ** Running the monad *)

Lemma bind_Ok {A B} (c : M A) (k : A → M B) st a st' :
  c st = (Ok a, st') → bind c k st = k a st'.
Proof. unfold bind. by intros ->. Qed.

Lemma bind_Raise {A B} (c : M A) (k : A → M B) st e st' :
  c st = (Raise e, st') → bind c k st = (Raise e, st').
Proof. unfold bind. by intros ->. Qed.

Lemma bind_assoc {A B C} (c : M A) (k1 : A → M B) (k2 : B → M C) st :
  bind (bind c k1) k2 st = bind c (λ a, bind (k1 a) k2) st.
Proof. unfold bind. by destruct (c st) as [[a | e] st']. Qed.

Lemma getitem_Some d k v st : d !! k = Some v → getitem d k st = (Ok v, st).
Proof. unfold getitem. by intros ->. Qed.

Lemma getitem_None d k st :
  d !! k = None → getitem d k st = (Raise (KeyError k), st).
Proof. unfold getitem. by intros ->. Qed.

(** ** The High-Volume rule *)

Lemma high_volume_rule_run st d size symbol :
  d !! "size" = Some size → d !! "symbol" = Some symbol →
  high_volume_rule d st =
    (match as_number size with
     | Some x => Ok (Qgtb x (volume_threshold st (key_of symbol)))
     | None => Raise TypeError
     end,
     set_high_volume_threshold
       (defaultdict_get default_volume_threshold (key_of symbol)
          (high_volume_threshold st)).2 st).
Proof.
  intros Hs Hy. unfold high_volume_rule.
  rewrite (bind_Ok _ _ _ _ _ (getitem_Some _ _ _ _ Hs)).
  rewrite (bind_Ok _ _ _ _ _ (getitem_Some _ _ _ _ Hy)).
  unfold bind, lookup_high_volume_threshold, py_gt, volume_threshold.
  rewrite <- defaultdict_get_value.
  destruct (defaultdict_get _ _ _) as [t m]. simpl.
  by destruct (as_number size).
Qed.

Lemma high_volume_rule_state st d :
  ∃ m, (high_volume_rule d st).2 = set_high_volume_threshold m st
       ∧ (∀ k, default default_volume_threshold (m !! k)
               = volume_threshold st k)
       ∧ (m = high_volume_threshold st
          ∨ ∃ symbol, d !! "symbol" = Some symbol
              ∧ high_volume_threshold st !! key_of symbol = None
              ∧ m = <[key_of symbol := default_volume_threshold]>
                      (high_volume_threshold st)).
Proof.
  assert (Hid : st = set_high_volume_threshold (high_volume_threshold st) st)
    by by destruct st.
  destruct (d !! "size") as [size |] eqn:Hs.
  - destruct (d !! "symbol") as [symbol |] eqn:Hy.
    + rewrite (high_volume_rule_run _ _ _ _ Hs Hy). simpl.
      eexists. split; [reflexivity |]. split.
      * intros k. apply defaultdict_get_lookup.
      * unfold defaultdict_get.
        destruct (high_volume_threshold st !! key_of symbol) eqn:E;
          [by left | right; eauto].
    + exists (high_volume_threshold st). unfold high_volume_rule.
      rewrite (bind_Ok _ _ _ _ _ (getitem_Some _ _ _ _ Hs)).
      rewrite (bind_Raise _ _ _ _ _ (getitem_None _ _ _ Hy)). simpl. eauto.
  - exists (high_volume_threshold st). unfold high_volume_rule.
    rewrite (bind_Raise _ _ _ _ _ (getitem_None _ _ _ Hs)). simpl. eauto.
Qed.

(** ** The Rapid-Price-Change rule *)

Lemma lookup_history_run st symbol :
  lookup_history symbol st =
    (Ok (history_of st (key_of symbol)),
     set_transaction_history
       (defaultdict_get [] (key_of symbol) (transaction_history st)).2 st).
Proof.
  unfold lookup_history, history_of. rewrite <- defaultdict_get_value.
  by destruct (defaultdict_get _ _ _).
Qed.

Lemma history_append_run st symbol price :
  history_append symbol price st =
    (Ok tt, recorded symbol price (history_of st (key_of symbol)) st).
Proof.
  unfold history_append.
  rewrite (bind_Ok _ _ _ _ _ (lookup_history_run _ _)).
  unfold modify, recorded, set_transaction_history. simpl.
  by rewrite insert_defaultdict_get.
Qed.

Lemma rapid_price_change_first st d symbol price :
  d !! "symbol" = Some symbol → d !! "price" = Some price →
  history_of st (key_of symbol) = [] →
  rapid_price_change d st = (Ok false, recorded symbol price [] st).
Proof.
  intros Hy Hp Hh. unfold rapid_price_change.
  rewrite (bind_Ok _ _ _ _ _ (getitem_Some _ _ _ _ Hy)).
  rewrite (bind_Ok _ _ _ _ _ (getitem_Some _ _ _ _ Hp)).
  rewrite (bind_Ok _ _ _ _ _ (lookup_history_run _ _)).
  rewrite Hh. simpl.
  rewrite (bind_Ok _ _ _ _ _ (history_append_run _ _ _)).
  unfold ret, recorded, set_transaction_history, history_of. simpl.
  rewrite !insert_defaultdict_get, !defaultdict_get_lookup.
  unfold history_of in Hh. by rewrite Hh.
Qed.

(** The rule on a symbol whose last price is the number [l]: what is left
    once the record and the history have been read. *)
Lemma rapid_price_change_last st d symbol p h l :
  d !! "symbol" = Some symbol → d !! "price" = Some (VNum p) →
  transaction_history st !! key_of symbol = Some h →
  last h = Some (VNum l) →
  rapid_price_change d st =
    bind (lift (number_sub p l)) (λ diff,
      bind (py_div diff l) (λ quotient,
        bind (history_append symbol (VNum p)) (λ _,
          bind (lookup_rapid_price_change_threshold symbol) (λ threshold,
            ret (float_gt (float_abs quotient) threshold))))) st.
Proof.
  intros Hy Hp Hh Hl. unfold rapid_price_change.
  rewrite (bind_Ok _ _ _ _ _ (getitem_Some _ _ _ _ Hy)).
  rewrite (bind_Ok _ _ _ _ _ (getitem_Some _ _ _ _ Hp)).
  rewrite (bind_Ok _ _ _ _ _ (lookup_history_run _ _)).
  unfold history_of. rewrite Hh. simpl. rewrite Hl.
  rewrite defaultdict_get_present by (by rewrite Hh).
  assert (Hid : set_transaction_history (transaction_history st) st = st)
    by by destruct st.
  rewrite Hid. unfold py_sub. simpl.
  unfold bind at 1 6. destruct (lift (number_sub p l) st) as [[x | e] st'];
    [| done].
  unfold bind at 1. by unfold number.
Qed.

Lemma lift_Ok {A} (r : result A) (a : A) st :
  r = Ok a → lift r st = (Ok a, st).
Proof. by intros ->. Qed.

Lemma lift_Raise {A} (r : result A) e st :
  r = Raise e → lift r st = (Raise e, st).
Proof. by intros ->. Qed.

Lemma rapid_price_change_next st d symbol p h l x c :
  d !! "symbol" = Some symbol → d !! "price" = Some (VNum p) →
  transaction_history st !! key_of symbol = Some h →
  last h = Some (VNum l) → ¬ (l == 0)%Q →
  number_sub p l = Ok x → number_truediv x l = Ok c →
  rapid_price_change d st =
    (Ok (float_gt (float_abs c)
                  (price_change_threshold st (key_of symbol))),
     set_rapid_price_change_threshold
       (defaultdict_get default_price_change_threshold (key_of symbol)
          (rapid_price_change_threshold st)).2
       (recorded symbol (VNum p) h st)).
Proof.
  intros Hy Hp Hh Hl Hz Hx Hc.
  rewrite (rapid_price_change_last _ _ _ _ _ _ Hy Hp Hh Hl).
  rewrite (bind_Ok _ _ _ _ _ (lift_Ok _ _ _ Hx)).
  unfold bind at 1. unfold py_div.
  apply is_zero_false in Hz. rewrite Hz.
  rewrite (lift_Ok _ _ _ Hc).
  rewrite (bind_Ok _ _ _ _ _ (history_append_run _ _ _)).
  unfold history_of. rewrite Hh. simpl.
  unfold bind, lookup_rapid_price_change_threshold, price_change_threshold.
  rewrite <- defaultdict_get_value. simpl.
  by destruct (defaultdict_get _ _ _).
Qed.

Lemma rapid_price_change_zero st d symbol p h l x :
  d !! "symbol" = Some symbol → d !! "price" = Some (VNum p) →
  transaction_history st !! key_of symbol = Some h →
  last h = Some (VNum l) → (l == 0)%Q →
  number_sub p l = Ok x →
  rapid_price_change d st = (Raise ZeroDivisionError, st).
Proof.
  intros Hy Hp Hh Hl Hz Hx.
  rewrite (rapid_price_change_last _ _ _ _ _ _ Hy Hp Hh Hl).
  rewrite (bind_Ok _ _ _ _ _ (lift_Ok _ _ _ Hx)).
  unfold bind at 1. unfold py_div.
  apply is_zero_true in Hz. by rewrite Hz.
Qed.

Lemma rapid_price_change_sub_raises st d symbol p h l e :
  d !! "symbol" = Some symbol → d !! "price" = Some (VNum p) →
  transaction_history st !! key_of symbol = Some h →
  last h = Some (VNum l) →
  number_sub p l = Raise e →
  rapid_price_change d st = (Raise e, st).
Proof.
  intros Hy Hp Hh Hl Hx.
  rewrite (rapid_price_change_last _ _ _ _ _ _ Hy Hp Hh Hl).
  by rewrite (bind_Raise _ _ _ _ _ (lift_Raise _ _ _ Hx)).
Qed.

Lemma rapid_price_change_div_raises st d symbol p h l x e :
  d !! "symbol" = Some symbol → d !! "price" = Some (VNum p) →
  transaction_history st !! key_of symbol = Some h →
  last h = Some (VNum l) → ¬ (l == 0)%Q →
  number_sub p l = Ok x → number_truediv x l = Raise e →
  rapid_price_change d st = (Raise e, st).
Proof.
  intros Hy Hp Hh Hl Hz Hx Hc.
  rewrite (rapid_price_change_last _ _ _ _ _ _ Hy Hp Hh Hl).
  rewrite (bind_Ok _ _ _ _ _ (lift_Ok _ _ _ Hx)).
  unfold bind at 1. unfold py_div.
  apply is_zero_false in Hz. rewrite Hz.
  by rewrite (lift_Raise _ _ _ Hc).
Qed.

(** ** The Outlier Scorer *)

Lemma fit_calls_app (t t' : list event) :
  fit_calls (t ++ t') = fit_calls t + fit_calls t'.
Proof.
  induction t as [| e t IH]; [done |].
  destruct e; simpl; rewrite IH; lia.
Qed.

Lemma produced_app (t t' : list event) :
  produced (t ++ t') = produced t ++ produced t'.
Proof.
  induction t as [| e t IH]; [done |].
  destruct e; simpl; by rewrite IH.
Qed.

Lemma scorer_warming st d price :
  d !! "price" = Some price →
  length (fit_prices_all st) + 1 < 100 →
  isolation_forest_anomaly d st =
    (Ok false, set_fit_prices_all (fit_prices_all st ++ [price]) st).
Proof.
  intros Hp Hlen. unfold isolation_forest_anomaly, score_price.
  rewrite (bind_Ok _ _ _ _ _ (getitem_Some _ _ _ _ Hp)).
  unfold bind, modify, gets. simpl.
  rewrite length_app. simpl.
  by destruct (Nat.ltb_spec (length (fit_prices_all st) + 1) 100); [| lia].
Qed.

Lemma scorer_unfitted st d price xs :
  d !! "price" = Some price →
  as_numbers (fit_prices_all st ++ [price]) = Some xs →
  100 ≤ length xs → length xs mod 1000 ≠ 0 → is_fitted st = false →
  isolation_forest_anomaly d st =
    (Ok false,
     State (high_volume_threshold st) (rapid_price_change_threshold st)
           (transaction_history st) (fit_prices_all st ++ [price])
           false (isolation_forest st) (processed_sequence st)
           (trace st ++ division_trace (np_std xs))).
Proof.
  intros Hp Hxs Hlen Hmod Hfit. unfold isolation_forest_anomaly, score_price.
  rewrite (bind_Ok _ _ _ _ _ (getitem_Some _ _ _ _ Hp)).
  unfold bind at 1. unfold modify. unfold bind at 1. unfold gets at 1.
  simpl. rewrite Hxs, <- (as_numbers_length _ _ Hxs).
  destruct (Nat.ltb_spec (length xs) 100); [lia |].
  destruct (Nat.eqb_spec (length xs mod 1000) 0); [done |].
  unfold bind, np_div_by, division_trace, emit, modify, ret, gets.
  destruct (is_zero (np_std xs)); simpl; rewrite Hfit; simpl;
    unfold set_fit_prices_all; by rewrite ?app_nil_r, ?Hfit.
Qed.

(** ** Frames *)

Section Keeps.

Context (R : relation state) `{!PreOrder R}.

Lemma keeps_pure {A} (c : M A) : (∀ st, (c st).2 = st) → keeps R c.
Proof. intros E st. by rewrite E. Qed.

Lemma keeps_ret {A} (a : A) : keeps R (ret a).
Proof. by apply keeps_pure. Qed.

Lemma keeps_raise {A} (e : exn) : keeps R (raise (A := A) e).
Proof. by apply keeps_pure. Qed.

Lemma keeps_gets {A} (f : state → A) : keeps R (gets f).
Proof. by apply keeps_pure. Qed.

Lemma keeps_getitem d k : keeps R (getitem d k).
Proof. apply keeps_pure. intros st. unfold getitem. by destruct (d !! k). Qed.

Lemma keeps_subscript obj k : keeps R (subscript obj k).
Proof. destruct obj; [apply keeps_getitem | apply keeps_raise ..]. Qed.

Lemma keeps_number v : keeps R (number v).
Proof. apply keeps_pure. intros st. unfold number. by destruct (as_number v). Qed.

Lemma keeps_lift {A} (r : result A) : keeps R (lift r).
Proof. apply keeps_pure. intros st. by destruct r. Qed.

Lemma keeps_py_sub a b : keeps R (py_sub a b).
Proof.
  unfold py_sub.
  destruct (as_number a), (as_number b);
    first [apply keeps_lift | apply keeps_raise].
Qed.

Lemma keeps_py_div x b : keeps R (py_div x b).
Proof.
  unfold py_div. destruct (is_zero b); [apply keeps_raise | apply keeps_lift].
Qed.

Lemma keeps_py_gt a t : keeps R (py_gt a t).
Proof. apply keeps_pure. intros st. unfold py_gt. by destruct (as_number a). Qed.

Lemma keeps_modify (f : state → state) :
  (∀ st, R st (f st)) → keeps R (modify f).
Proof. intros H st. apply H. Qed.

Lemma keeps_bind {A B} (c : M A) (k : A → M B) :
  keeps R c → (∀ a, keeps R (k a)) → keeps R (bind c k).
Proof.
  intros Hc Hk st. unfold bind. specialize (Hc st).
  destruct (c st) as [[a | e] st']; simpl in *; [| done].
  by etrans; [| apply Hk].
Qed.

Lemma keeps_np_div_by std :
  (∀ e, is_produce e = false → keeps R (emit e)) → keeps R (np_div_by std).
Proof.
  intros He. unfold np_div_by. destruct (is_zero std); [by apply He |].
  apply keeps_ret.
Qed.

Lemma keeps_lookup_high_volume_threshold symbol :
  (∀ t st, R st (set_high_volume_threshold
                   (<[key_of symbol := t]> (high_volume_threshold st)) st)) →
  keeps R (lookup_high_volume_threshold symbol).
Proof.
  intros H st. unfold lookup_high_volume_threshold, defaultdict_get.
  destruct (high_volume_threshold st !! key_of symbol); simpl; [| apply H].
  by destruct st.
Qed.

Lemma keeps_lookup_rapid_price_change_threshold symbol :
  (∀ t st, R st (set_rapid_price_change_threshold
                   (<[key_of symbol := t]> (rapid_price_change_threshold st))
                   st)) →
  keeps R (lookup_rapid_price_change_threshold symbol).
Proof.
  intros H st. unfold lookup_rapid_price_change_threshold, defaultdict_get.
  destruct (rapid_price_change_threshold st !! key_of symbol); simpl;
    [| apply H].
  by destruct st.
Qed.

Lemma keeps_lookup_history symbol :
  (∀ h st, R st (set_transaction_history
                   (<[key_of symbol := h]> (transaction_history st)) st)) →
  keeps R (lookup_history symbol).
Proof.
  intros H st. unfold lookup_history, defaultdict_get.
  destruct (transaction_history st !! key_of symbol); simpl; [| apply H].
  by destruct st.
Qed.

Lemma keeps_history_append symbol price :
  (∀ h st, R st (set_transaction_history
                   (<[key_of symbol := h]> (transaction_history st)) st)) →
  keeps R (history_append symbol price).
Proof.
  intros H. apply keeps_bind; [by apply keeps_lookup_history |].
  intros h. apply keeps_modify. intros st. apply H.
Qed.

Lemma keeps_high_volume_rule d :
  (∀ k t st, R st (set_high_volume_threshold
                     (<[k := t]> (high_volume_threshold st)) st)) →
  keeps R (high_volume_rule d).
Proof.
  intros H. unfold high_volume_rule.
  apply keeps_bind; [apply keeps_getitem | intros size].
  apply keeps_bind; [apply keeps_getitem | intros symbol].
  apply keeps_bind; [| intros t; apply keeps_py_gt].
  apply keeps_lookup_high_volume_threshold. intros. apply H.
Qed.

Lemma keeps_rapid_price_change d :
  (∀ symbol h st,
     d !! "symbol" = Some symbol →
     R st (set_transaction_history
             (<[key_of symbol := h]> (transaction_history st)) st)) →
  (∀ k t st, R st (set_rapid_price_change_threshold
                     (<[k := t]> (rapid_price_change_threshold st)) st)) →
  keeps R (rapid_price_change d).
Proof.
  intros Hh Ht st. unfold rapid_price_change.
  destruct (d !! "symbol") as [symbol |] eqn:Hy;
    [| by rewrite (bind_Raise _ _ _ _ _ (getitem_None _ _ _ Hy))].
  rewrite (bind_Ok _ _ _ _ _ (getitem_Some _ _ _ _ Hy)).
  specialize (Hh symbol). revert st.
  apply keeps_bind; [apply keeps_getitem |].
  intros price.
  apply keeps_bind; [apply keeps_lookup_history; auto | intros h].
  destruct (last h).
  - apply keeps_bind; [apply keeps_py_sub | intros ?].
    apply keeps_bind; [apply keeps_number | intros ?].
    apply keeps_bind; [apply keeps_py_div | intros ?].
    apply keeps_bind; [apply keeps_history_append; auto | intros ?].
    apply keeps_bind; [| intros ?; apply keeps_ret].
    apply keeps_lookup_rapid_price_change_threshold. intros. apply Ht.
  - apply keeps_bind; [apply keeps_history_append; auto | intros ?].
    apply keeps_ret.
Qed.

Lemma keeps_score_price price :
  (∀ e, is_produce e = false → keeps R (emit e)) →
  (∀ f st, R st (set_fitted f st) ∧ R st (set_isolation_forest f st)) →
  keeps R (score_price price).
Proof.
  intros He Hf. unfold score_price.
  apply keeps_bind; [apply keeps_gets | intros fit_prices].
  destruct (length fit_prices <? 100); [apply keeps_ret |].
  destruct (as_numbers fit_prices) as [xs |]; [| apply keeps_raise].
  apply keeps_bind; [by apply keeps_np_div_by | intros ?].
  apply keeps_bind.
  - destruct (length fit_prices mod 1000 =? 0); [| apply keeps_ret].
    apply keeps_bind; [by apply He | intros ?].
    apply keeps_bind; [apply keeps_gets | intros model].
    destruct (fit model _).
    + apply keeps_modify. intros. apply Hf.
    + apply keeps_bind; [| intros ?; apply keeps_raise].
      apply keeps_modify. intros. apply Hf.
  - intros ?. apply keeps_bind; [apply keeps_gets | intros fitted].
    destruct (negb fitted); [apply keeps_ret |].
    apply keeps_bind; [apply keeps_number | intros ?].
    apply keeps_bind; [by apply keeps_np_div_by | intros ?].
    apply keeps_bind; [by apply He | intros ?].
    apply keeps_bind; [apply keeps_gets | intros model].
    destruct (decision_function model _); [apply keeps_ret | apply keeps_raise].
Qed.

Lemma keeps_isolation_forest_anomaly d :
  (∀ l st, R st (set_fit_prices_all l st)) →
  (∀ e, is_produce e = false → keeps R (emit e)) →
  (∀ f st, R st (set_fitted f st) ∧ R st (set_isolation_forest f st)) →
  keeps R (isolation_forest_anomaly d).
Proof.
  intros Hc He Hf. unfold isolation_forest_anomaly.
  apply keeps_bind; [apply keeps_getitem | intros price].
  apply keeps_bind; [apply keeps_modify; intros; apply Hc | intros ?].
  by apply keeps_score_price.
Qed.

Lemma keeps_detectors {A} d (k : bool → bool → bool → M A) :
  (∀ k t st, R st (set_high_volume_threshold
                     (<[k := t]> (high_volume_threshold st)) st)) →
  (∀ symbol h st,
     d !! "symbol" = Some symbol →
     R st (set_transaction_history
             (<[key_of symbol := h]> (transaction_history st)) st)) →
  (∀ k t st, R st (set_rapid_price_change_threshold
                     (<[k := t]> (rapid_price_change_threshold st)) st)) →
  (∀ l st, R st (set_fit_prices_all l st)) →
  (∀ e, is_produce e = false → keeps R (emit e)) →
  (∀ f st, R st (set_fitted f st) ∧ R st (set_isolation_forest f st)) →
  (∀ hv rp ifa, keeps R (k hv rp ifa)) →
  keeps R (bind (high_volume_rule d) (λ hv,
           bind (rapid_price_change d) (λ rp,
           bind (isolation_forest_anomaly d) (λ ifa, k hv rp ifa)))).
Proof.
  intros Hv Hh Hc Hl He Hf Hk.
  apply keeps_bind; [by apply keeps_high_volume_rule | intros hv].
  apply keeps_bind; [by apply keeps_rapid_price_change | intros rp].
  apply keeps_bind; [by apply keeps_isolation_forest_anomaly | intros ifa].
  apply Hk.
Qed.

Lemma keeps_process_decoded obj :
  tolerant R →
  (∀ s st, R st (set_processed_sequence s st)) →
  (∀ d symbol h st,
     obj = PyDict d → d !! "symbol" = Some symbol →
     R st (set_transaction_history
             (<[key_of symbol := h]> (transaction_history st)) st)) →
  keeps R (process_decoded obj).
Proof.
  intros [Hv Hc Hl Hf He] Hs Hh. unfold process_decoded.
  apply keeps_bind; [apply keeps_subscript | intros sequence].
  apply keeps_bind; [apply keeps_gets | intros seen].
  destruct (decide _); [apply keeps_ret |].
  apply keeps_bind; [apply keeps_modify; intros; apply Hs | intros _].
  destruct obj as [d | |]; [| apply keeps_raise ..].
  apply keeps_detectors; eauto. intros hv rp ifa.
  unfold publish. destruct (_ ++ _); [apply keeps_ret |].
  apply keeps_bind; [apply He | intros _; apply He].
Qed.

Lemma keeps_process_trade raw :
  tolerant R →
  (∀ s st, R st (set_processed_sequence s st)) →
  (∀ symbol h st,
     field "symbol" raw = Some symbol →
     R st (set_transaction_history
             (<[key_of symbol := h]> (transaction_history st)) st)) →
  keeps R (process_trade raw).
Proof.
  intros HR Hs Hh. unfold process_trade. unfold field, decode in Hh.
  destruct raw as [d | q | s].
  - apply keeps_process_decoded; [done .. |]. intros ? ? ? ? [= <-]. eauto.
  - by apply keeps_process_decoded.
  - destruct (json_loads s) as [obj | | e];
      [| apply HR | apply keeps_raise].
    apply keeps_process_decoded; [done .. |]. intros ? ? ? ? ->. eauto.
Qed.

End Keeps.

Global Instance same_preorder {X} (f : state → X) : PreOrder (same f).
Proof.
  split; [by intros st |].
  intros st1 st2 st3 H12 H23. unfold same in *. congruence.
Qed.

Global Instance stays_fitted_preorder : PreOrder stays_fitted.
Proof.
  split; [intros st H; exact H |].
  intros st1 st2 st3 H12 H23 H. exact (H23 (H12 H)).
Qed.

(** Closes a frame goal whose update leaves the observation alone. *)
Ltac frame_solve :=
  repeat intro;
  repeat match goal with st : state |- _ => destruct st end;
  unfold same, stays_fitted, emit, modify in *; simpl in *; try done.

Lemma process_trade_stays_fitted raw st :
  is_fitted st = true → is_fitted (process_trade raw st).2 = true.
Proof.
  apply (keeps_process_trade stays_fitted); [split | ..]; frame_solve.
Qed.

Lemma process_trade_other_history raw st k :
  (∀ symbol, field "symbol" raw = Some symbol → key_of symbol ≠ k) →
  transaction_history (process_trade raw st).2 !! k
  = transaction_history st !! k.
Proof.
  intros Hk.
  apply (keeps_process_trade (same (λ st, transaction_history st !! k))).
  - split; frame_solve.
  - frame_solve.
  - intros symbol h st0 Hy. unfold same. destruct st0. simpl.
    apply lookup_insert_ne. by apply Hk.
Qed.

Lemma run_other_history raws st k :
  (∀ raw symbol,
     raw ∈ raws → field "symbol" raw = Some symbol → key_of symbol ≠ k) →
  transaction_history (run raws st) !! k = transaction_history st !! k.
Proof.
  revert st. induction raws as [| raw raws IH]; intros st Hk; [done |].
  simpl. rewrite IH.
  - apply process_trade_other_history. intros symbol. apply Hk. by left.
  - intros raw' symbol Hin. apply Hk. by right.
Qed.

(** ** Decoding and deduplication *)

Lemma bind_elim {A B} (P : result B * state → Prop) (c : M A)
    (k : A → M B) st :
  (∀ a st', c st = (Ok a, st') → P (k a st')) →
  (∀ e st', c st = (Raise e, st') → P (Raise e, st')) →
  P (bind c k st).
Proof.
  intros HOk HRaise. unfold bind.
  destruct (c st) as [[a | e] st'] eqn:E; [by apply HOk | by apply HRaise].
Qed.

Lemma field_decode k raw v :
  field k raw = Some v → ∃ d, decode raw = Some (PyDict d) ∧ d !! k = Some v.
Proof.
  unfold field. destruct (decode raw) as [[d | |] |]; try done. eauto.
Qed.

Lemma process_trade_decoded raw obj :
  decode raw = Some obj → process_trade raw = process_decoded obj.
Proof.
  unfold decode, process_trade. destruct raw as [d | q | s].
  - by intros [= <-].
  - by intros [= <-].
  - by destruct (json_loads s); intros [= <-].
Qed.

Lemma process_decoded_seen d sequence st :
  d !! "sequence" = Some sequence →
  key_of sequence ∈ processed_sequence st →
  process_decoded (PyDict d) st = (Ok tt, st).
Proof.
  intros Hq Hin. unfold process_decoded, subscript.
  rewrite (bind_Ok _ _ _ _ _ (getitem_Some _ _ _ _ Hq)).
  unfold bind, gets. by rewrite decide_True.
Qed.

Lemma process_decoded_fresh d sequence st :
  d !! "sequence" = Some sequence →
  key_of sequence ∉ processed_sequence st →
  process_decoded (PyDict d) st =
    detect d sequence
      (set_processed_sequence
         ({[key_of sequence]} ∪ processed_sequence st) st).
Proof.
  intros Hq Hin. unfold process_decoded, subscript.
  rewrite (bind_Ok _ _ _ _ _ (getitem_Some _ _ _ _ Hq)).
  unfold bind, gets, modify. by rewrite decide_False.
Qed.

Lemma keeps_detect (R : relation state) `{!PreOrder R} d sequence :
  tolerant R →
  (∀ symbol h st,
     d !! "symbol" = Some symbol →
     R st (set_transaction_history
             (<[key_of symbol := h]> (transaction_history st)) st)) →
  keeps R (detect d sequence).
Proof.
  intros [Hv Hc Hl Hf He] Hh.
  apply (keeps_detectors R); eauto. intros hv rp ifa.
  unfold publish. destruct (_ ++ _); [apply (keeps_ret R) |].
  apply (keeps_bind R); [apply He | intros _; apply He].
Qed.

Lemma detect_keeps_sequences d sequence st :
  processed_sequence (detect d sequence st).2 = processed_sequence st.
Proof.
  apply (keeps_detect (same processed_sequence)); [split |]; frame_solve.
Qed.

Lemma process_decoded_marks d sequence st :
  d !! "sequence" = Some sequence →
  key_of sequence ∈ processed_sequence (process_decoded (PyDict d) st).2.
Proof.
  intros Hq.
  destruct (decide (key_of sequence ∈ processed_sequence st)) as [Hin | Hin].
  - by rewrite (process_decoded_seen _ _ _ Hq Hin).
  - rewrite (process_decoded_fresh _ _ _ Hq Hin), detect_keeps_sequences.
    simpl. set_solver.
Qed.

Lemma detectors_keep_produced {A} d (k : bool → bool → bool → M A) st :
  (∀ hv rp ifa st', at_most_one_more st' (k hv rp ifa st').2) →
  at_most_one_more st
    (bind (high_volume_rule d) (λ hv,
     bind (rapid_price_change d) (λ rp,
     bind (isolation_forest_anomaly d) (λ ifa, k hv rp ifa))) st).2.
Proof.
  intros Hk.
  pose (R := same (λ st, produced (trace st))).
  assert (Hemit : ∀ e, is_produce e = false → keeps R (emit e)).
  { intros e He st0. unfold R, same, emit, modify. simpl.
    rewrite produced_app. destruct e; try done; simpl; by rewrite app_nil_r. }
  apply bind_elim; [intros hv st1 E1 | intros e st1 E1].
  2:{ left. pose proof (keeps_high_volume_rule R d) as H.
      specialize (H ltac:(frame_solve) st). by rewrite E1 in H. }
  assert (H1 : R st st1).
  { pose proof (keeps_high_volume_rule R d) as H.
    specialize (H ltac:(frame_solve) st). by rewrite E1 in H. }
  apply bind_elim; [intros rp st2 E2 | intros e st2 E2].
  2:{ left. pose proof (keeps_rapid_price_change R d) as H.
      specialize (H ltac:(frame_solve) ltac:(frame_solve) st1).
      rewrite E2 in H. simpl in *. unfold R, same in *. congruence. }
  assert (H2 : R st1 st2).
  { pose proof (keeps_rapid_price_change R d) as H.
    specialize (H ltac:(frame_solve) ltac:(frame_solve) st1).
    by rewrite E2 in H. }
  apply bind_elim; [intros ifa st3 E3 | intros e st3 E3].
  2:{ left. pose proof (keeps_isolation_forest_anomaly R d) as H.
      specialize (H ltac:(frame_solve) Hemit ltac:(frame_solve) st2).
      rewrite E3 in H. simpl in *. unfold R, same in *. congruence. }
  assert (H3 : R st2 st3).
  { pose proof (keeps_isolation_forest_anomaly R d) as H.
    specialize (H ltac:(frame_solve) Hemit ltac:(frame_solve) st2).
    by rewrite E3 in H. }
  specialize (Hk hv rp ifa st3). unfold at_most_one_more, R, same in *.
  destruct Hk as [Hk | [m Hk]]; [left | right; exists m]; congruence.
Qed.

Lemma detect_produced d sequence st :
  at_most_one_more st (detect d sequence st).2.
Proof.
  apply detectors_keep_produced. intros hv rp ifa st'.
  unfold publish. destruct (_ ++ _) as [| l ls]; [by left |].
  right. eexists. unfold bind, emit, modify. simpl.
  rewrite !produced_app. simpl. by rewrite app_nil_r.
Qed.

Lemma process_decoded_produced obj st :
  at_most_one_more st (process_decoded obj st).2.
Proof.
  unfold process_decoded.
  apply bind_elim; [intros sequence st1 E1 | intros e st1 E1];
    (assert (st1 = st) as ->
       by (pose proof (keeps_subscript (same id) obj "sequence" st) as H;
           by rewrite E1 in H)); [| by left].
  unfold bind at 1, gets.
  destruct (decide _); [by left |].
  unfold bind at 1, modify.
  destruct obj as [d | |]; [| by left ..].
  destruct (detect_produced d sequence
              (set_processed_sequence
                 ({[key_of sequence]} ∪ processed_sequence st) st))
    as [H | [m H]]; [left | right; exists m]; by rewrite H.
Qed.

Lemma process_trade_produced raw st :
  at_most_one_more st (process_trade raw st).2.
Proof.
  unfold process_trade. destruct raw as [d | q | s];
    try apply process_decoded_produced.
  destruct (json_loads s); [apply process_decoded_produced | | by left].
  left. unfold emit, modify. simpl. rewrite produced_app. simpl.
  by rewrite app_nil_r.
Qed.

(** C1.  Dedup idempotence: when two payloads carry the same sequence
    (sequences that Python holds equal), then in the state the first one
    leaves behind, whether it returned or raised, the second one returns
    at once and leaves every part of the state as it was, the published
    messages included; and the first one published at most one message. *)
Theorem duplicate_sequence_dropped raw1 raw2 sequence1 sequence2 st :
  field "sequence" raw1 = Some sequence1 →
  field "sequence" raw2 = Some sequence2 →
  key_of sequence1 = key_of sequence2 →
  let st1 := (process_trade raw1 st).2 in
  process_trade raw2 st1 = (Ok tt, st1) ∧ at_most_one_more st st1.
Proof.
  intros H1 H2 Hk st1. split; [| apply process_trade_produced].
  apply field_decode in H1 as (d1 & D1 & Q1).
  apply field_decode in H2 as (d2 & D2 & Q2).
  rewrite (process_trade_decoded _ _ D2).
  apply (process_decoded_seen _ _ _ Q2). rewrite <- Hk.
  unfold st1. rewrite (process_trade_decoded _ _ D1).
  by apply process_decoded_marks.
Qed.

(** C5.  Warm-up gating: while the corpus, the current price included,
    holds fewer than 100 samples, the scorer returns not anomalous whatever
    the price is; all it does is append the price to the corpus (no
    normalization, no fit, no scoring: the trace and the model are as
    before). *)
Theorem warm_up_never_flags st d price :
  d !! "price" = Some price →
  length (fit_prices_all st ++ [price]) < 100 →
  isolation_forest_anomaly d st =
    (Ok false, set_fit_prices_all (fit_prices_all st ++ [price]) st).
Proof.
  intros Hp Hlen. apply scorer_warming; [done |].
  rewrite length_app in Hlen. simpl in Hlen. lia.
Qed.

(** C7.  First-sighting immunity: after any stream of payloads none of
    which names the symbol, the Rapid-Price-Change rule, whatever the price
    of the trade, returns false and leaves the price as the only entry of
    the symbol's history. *)
Theorem first_sighting_never_fires raws d symbol price :
  (∀ raw s, raw ∈ raws → field "symbol" raw = Some s →
            key_of s ≠ key_of symbol) →
  d !! "symbol" = Some symbol → d !! "price" = Some price →
  let st := run raws initial_state in
  rapid_price_change d st = (Ok false, recorded symbol price [] st)
  ∧ history_of (recorded symbol price [] st) (key_of symbol) = [price].
Proof.
  intros Hraws Hy Hp st. split.
  - apply rapid_price_change_first; [done .. |].
    unfold history_of, st. by rewrite (run_other_history _ _ _ Hraws).
  - unfold history_of, recorded. simpl. by rewrite lookup_insert_eq.
Qed.

(** C8, amended.  Both rules test strict exceedance.  High-Volume, for a
    record whose size is a number, fires exactly when the size is strictly
    above the symbol's volume threshold, and at equality it does not,
    whatever the price and the history are.  Rapid-Price-Change, for a
    symbol whose last price [l] is a non-zero number, tests the float that
    line 50 computes, not the exact relative change: when the subtraction
    returns [x] and the division returns [c], the rule fires exactly when
    |c| is strictly above the symbol's price-change threshold; at equality
    it does not fire, an infinity fires and nan does not. *)
Theorem threshold_boundaries st d symbol size :
  d !! "size" = Some (VNum size) → d !! "symbol" = Some symbol →
  let volume := volume_threshold st (key_of symbol) in
  let threshold := price_change_threshold st (key_of symbol) in
  ((size == volume)%Q → (high_volume_rule d st).1 = Ok false)
  ∧ ((volume < size)%Q → (high_volume_rule d st).1 = Ok true)
  ∧ ((size < volume)%Q → (high_volume_rule d st).1 = Ok false)
  ∧ ∀ p h l x c,
      d !! "price" = Some (VNum p) →
      transaction_history st !! key_of symbol = Some h →
      last h = Some (VNum l) → ¬ (l == 0)%Q →
      number_sub p l = Ok x → number_truediv x l = Ok c →
      (rapid_price_change d st).1 = Ok (float_gt (float_abs c) threshold)
      ∧ (∀ change, float_abs c = Finite change →
           ((change == threshold)%Q →
              (rapid_price_change d st).1 = Ok false)
           ∧ ((threshold < change)%Q →
                (rapid_price_change d st).1 = Ok true)
           ∧ ((change < threshold)%Q →
                (rapid_price_change d st).1 = Ok false))
      ∧ (float_abs c = PosInf → (rapid_price_change d st).1 = Ok true)
      ∧ (float_abs c = NaN → (rapid_price_change d st).1 = Ok false).
Proof.
  intros Hs Hy volume threshold.
  rewrite (high_volume_rule_run _ _ _ _ Hs Hy). simpl. fold volume.
  split; [| split; [| split]].
  - intros H. f_equal. by apply Qgtb_eq.
  - intros H. f_equal. by apply Qgtb_true.
  - intros H. f_equal. by apply Qgtb_false, Qlt_le_weak.
  - intros p h l x c Hp Hh Hl Hz Hx Hc.
    rewrite (rapid_price_change_next _ _ _ _ _ _ _ _ Hy Hp Hh Hl Hz Hx Hc).
    cbn [fst]. fold threshold.
    split; [done |]. split; [| split; by intros ->].
    intros change ->. cbn [float_gt].
    repeat split; intros H; f_equal;
      solve [ by apply Qgtb_eq | by apply Qgtb_true
            | by apply Qgtb_false, Qlt_le_weak ].
Qed.

(** C9, amended.  The High-Volume rule changes nothing but the volume
    threshold map, and that map only by storing the default of 10000 under
    a symbol that had no entry (the lookup of a defaultdict); the threshold
    in force for every symbol stays what it was, and for a symbol that has
    an entry the whole state is exactly as before. *)
Theorem high_volume_rule_frame st d :
  let st' := (high_volume_rule d st).2 in
  rapid_price_change_threshold st' = rapid_price_change_threshold st
  ∧ transaction_history st' = transaction_history st
  ∧ fit_prices_all st' = fit_prices_all st
  ∧ is_fitted st' = is_fitted st
  ∧ isolation_forest st' = isolation_forest st
  ∧ processed_sequence st' = processed_sequence st
  ∧ trace st' = trace st
  ∧ (∀ k, volume_threshold st' k = volume_threshold st k)
  ∧ (st' = st
     ∨ ∃ symbol, d !! "symbol" = Some symbol
         ∧ high_volume_threshold st !! key_of symbol = None
         ∧ high_volume_threshold st' =
             <[key_of symbol := default_volume_threshold]>
               (high_volume_threshold st)).
Proof.
  intros st'. destruct (high_volume_rule_state st d) as (m & E & Hm & Hc).
  fold st' in E. rewrite E. simpl. repeat split; [apply Hm |].
  destruct Hc as [-> | (symbol & Hy & Hn & ->)]; [left; by destruct st |].
  right. eauto.
Qed.

(** C2, amended.  When the last price recorded for the symbol is zero, the
    Rapid-Price-Change rule does not return: it raises before the price is
    recorded, the state being as it was.  What it raises is
    ZeroDivisionError from the division, unless the subtraction before it
    has raised (OverflowError, for an int too large for a float next to a
    float).  And [process_trade], for a record whose sequence has not been
    seen and whose size is a number, passes the error on to its caller,
    having published nothing and recorded the price neither in the history
    nor in the corpus. *)
Theorem zero_last_price_raises st d symbol p h l :
  d !! "symbol" = Some symbol → d !! "price" = Some (VNum p) →
  transaction_history st !! key_of symbol = Some h →
  last h = Some (VNum l) → (l == 0)%Q →
  let raised :=
    match number_sub p l with
    | Ok _ => ZeroDivisionError
    | Raise e => e
    end in
  rapid_price_change d st = (Raise raised, st)
  ∧ ∀ sequence size,
      d !! "sequence" = Some sequence → d !! "size" = Some (VNum size) →
      key_of sequence ∉ processed_sequence st →
      let r := process_trade (PyDict d) st in
      r.1 = Raise raised
      ∧ trace r.2 = trace st
      ∧ transaction_history r.2 = transaction_history st
      ∧ fit_prices_all r.2 = fit_prices_all st.
Proof.
  intros Hy Hp Hh Hl Hz raised.
  assert (Hrule : ∀ s, transaction_history s = transaction_history st →
            rapid_price_change d s = (Raise raised, s)).
  { intros s Hs. rewrite <- Hs in Hh. subst raised.
    destruct (number_sub p l) as [x | e] eqn:Hx.
    - by eapply rapid_price_change_zero.
    - by eapply rapid_price_change_sub_raises. }
  split; [by apply Hrule |].
  intros sequence size Hq Hs Hin. simpl.
  rewrite (process_decoded_fresh _ _ _ Hq Hin). unfold detect.
  rewrite (bind_Ok _ _ _ _ _ (high_volume_rule_run _ _ _ _ Hs Hy)).
  match goal with |- context [bind (rapid_price_change d) _ ?s] =>
    by rewrite (bind_Raise _ _ _ _ _ (Hrule s eq_refl))
  end.
Qed.

Lemma np_divide_by_zero (x std : Q) :
  (std == 0)%Q → ∀ q, np_divide x std ≠ Finite q.
Proof.
  intros Hz q. apply is_zero_true in Hz. unfold np_divide. rewrite Hz.
  by destruct (x ?= 0)%Q.
Qed.

(** Unfolds one call of the scorer on a corpus of numbers. *)
Ltac scorer_unfold Hp Hxs :=
  unfold isolation_forest_anomaly, score_price;
  rewrite (bind_Ok _ _ _ _ _ (getitem_Some _ _ _ _ Hp));
  unfold bind at 1; unfold modify at 1; unfold bind at 1; unfold gets at 1;
  simpl; rewrite Hxs, <- (as_numbers_length _ _ Hxs).

(** Splits the scorer on every test and library result on its path. *)
Ltac scorer_cases :=
  unfold bind, np_div_by, emit, modify, ret, raise, gets, number; simpl;
  repeat match goal with
  | |- context [is_zero ?x] => destruct (is_zero x) eqn:?; simpl
  | |- context [fit ?m ?X] => destruct (fit m X) eqn:?; simpl
  | |- context [is_fitted ?s] => is_var s; destruct (is_fitted s) eqn:?; simpl
  | |- context [decision_function ?m ?x] =>
      destruct (decision_function m x) eqn:?; simpl
  end.

(** C6, amended.  Retrain cadence: on a corpus whose samples are all
    numbers within the range of int64, one call of the scorer hands the
    model to [fit] once when the sample count, the current price included,
    is a multiple of 1000 (and at least 100), and not at all otherwise; a
    fit that returns makes the model fitted; a fitted model stays fitted
    through every later [process_trade]; and with at least 100 samples, no
    model fitted and no refit due, the scorer returns not anomalous. *)
Theorem retrain_cadence st d p xs :
  d !! "price" = Some (VNum p) →
  as_numbers (fit_prices_all st ++ [VNum p]) = Some xs →
  Forall fits_int64 xs →
  let r := isolation_forest_anomaly d st in
  let X := map (λ x, np_divide (x - np_mean xs) (np_std xs)) xs in
  fit_calls (trace r.2)
    = fit_calls (trace st) + (if refit_due (length xs) then 1 else 0)
  ∧ (refit_due (length xs) = true ↔ length xs mod 1000 = 0)
  ∧ (∀ model, refit_due (length xs) = true →
       fit (isolation_forest st) X = Ok model →
       is_fitted r.2 = true ∧ isolation_forest r.2 = model)
  ∧ (refit_due (length xs) = false →
       is_fitted r.2 = is_fitted st
       ∧ isolation_forest r.2 = isolation_forest st)
  ∧ (∀ raw st0, is_fitted st0 = true →
       is_fitted (process_trade raw st0).2 = true)
  ∧ (100 ≤ length xs → refit_due (length xs) = false →
       is_fitted st = false → r.1 = Ok false).
Proof.
  intros Hp Hxs _ r X.
  assert (Hpos : 0 < length xs).
  { rewrite (as_numbers_length _ _ Hxs), length_app. simpl. lia. }
  assert (Hdue : refit_due (length xs) = true ↔ length xs mod 1000 = 0).
  { unfold refit_due. rewrite andb_true_iff, Nat.leb_le, Nat.eqb_eq.
    split; [by intros [] | intros Hm; split; [| done]].
    apply Nat.Div0.mod_divides in Hm as [c Hc]. lia. }
  assert (Hwarm : length xs < 100 → length xs mod 1000 ≠ 0).
  { intros Hlt Hm. apply Nat.Div0.mod_divides in Hm as [c Hc]. lia. }
  subst r X. refine (conj _ (conj Hdue (conj _ (conj _ (conj _ _))))).
  - scorer_unfold Hp Hxs. unfold refit_due.
    destruct (Nat.ltb_spec (length xs) 100) as [Hlt | Hge].
    + destruct (Nat.leb_spec 100 (length xs)); [lia |]. simpl. lia.
    + destruct (Nat.leb_spec 100 (length xs)); [| lia]. simpl.
      destruct (length xs mod 1000 =? 0); scorer_cases;
        rewrite ?fit_calls_app; simpl; lia.
  - intros model Hd Hfit. apply Hdue in Hd.
    split; scorer_unfold Hp Hxs;
      (destruct (Nat.ltb_spec (length xs) 100) as [Hlt | Hge];
         [by apply Hwarm in Hlt |]);
      rewrite Hd; simpl; unfold bind, np_div_by, emit, modify, ret, gets;
      destruct (is_zero (np_std xs)); simpl; rewrite Hfit; simpl;
      by destruct (decision_function _ _).
  - intros Hd. unfold refit_due in Hd.
    split; scorer_unfold Hp Hxs;
      (destruct (Nat.ltb_spec (length xs) 100) as [Hlt | Hge]; [done |]);
      (destruct (Nat.leb_spec 100 (length xs)); [| lia]); simpl in Hd;
      rewrite Hd; by scorer_cases.
  - intros raw st0. apply process_trade_stays_fitted.
  - intros Hlen Hd Hfit.
    rewrite (scorer_unfitted _ _ _ _ Hp Hxs Hlen); [done | | done].
    intros Hm. apply Hdue in Hm. congruence.
Qed.

(** C3, amended.  With at least 100 samples in a corpus of numbers whose
    standard deviation is zero, the scorer does divide by it: numpy warns
    and yields nan or an infinity for every normalized price instead of
    raising.  It then returns not anomalous, with nothing else done, when
    no model is fitted and no refit is due. *)
Theorem zero_std_divides st d p xs :
  d !! "price" = Some (VNum p) →
  as_numbers (fit_prices_all st ++ [VNum p]) = Some xs →
  (np_std xs == 0)%Q → 100 ≤ length xs →
  let r := isolation_forest_anomaly d st in
  (∃ t, trace r.2 = trace st ++ DivideWarning :: t)
  ∧ (∀ x q, np_divide (x - np_mean xs) (np_std xs) ≠ Finite q)
  ∧ (is_fitted st = false → refit_due (length xs) = false →
     r = (Ok false,
          State (high_volume_threshold st) (rapid_price_change_threshold st)
                (transaction_history st) (fit_prices_all st ++ [VNum p])
                false (isolation_forest st) (processed_sequence st)
                (trace st ++ [DivideWarning]))).
Proof.
  intros Hp Hxs Hz Hlen r. subst r. repeat split.
  - scorer_unfold Hp Hxs.
    destruct (Nat.ltb_spec (length xs) 100) as [Hlt | Hge]; [lia |].
    apply is_zero_true in Hz.
    destruct (length xs mod 1000 =? 0); scorer_cases;
      rewrite <- ?app_assoc; simpl; try congruence; eauto.
  - intros x q. by apply np_divide_by_zero.
  - intros Hfit Hd.
    rewrite (scorer_unfitted _ _ _ _ Hp Hxs Hlen); [| | done].
    + apply is_zero_true in Hz. unfold division_trace. by rewrite Hz.
    + intros Hm. unfold refit_due in Hd.
      apply Nat.eqb_eq in Hm. rewrite Hm, andb_true_r in Hd.
      apply Nat.leb_gt in Hd. lia.
Qed.

(** ** Payloads *)

Lemma has_key_true k d : has_key k d = true → ∃ v, d !! k = Some v.
Proof. unfold has_key. destruct (d !! k); [eauto | done]. Qed.

Lemma has_key_false k d : has_key k d = false → d !! k = None.
Proof. unfold has_key. by destruct (d !! k). Qed.

(** The rule on a record whose size is text. *)
Lemma high_volume_rule_text st d symbol t :
  d !! "size" = Some (VStr t) → d !! "symbol" = Some symbol →
  (high_volume_rule d st).1 = Raise TypeError.
Proof.
  intros Hs Hy. unfold high_volume_rule.
  rewrite (bind_Ok _ _ _ _ _ (getitem_Some _ _ _ _ Hs)).
  rewrite (bind_Ok _ _ _ _ _ (getitem_Some _ _ _ _ Hy)).
  unfold bind, lookup_high_volume_threshold.
  by destruct (defaultdict_get _ _ _).
Qed.

(** With one of symbol, price and size missing the detectors raise a
    KeyError or a TypeError, and the trace is as it was. *)
Lemma detect_missing_field d sequence st :
  has_key "symbol" d && has_key "price" d && has_key "size" d = false →
  ((detect d sequence st).1 = Raise TypeError
   ∨ ∃ k, (detect d sequence st).1 = Raise (KeyError k))
  ∧ trace (detect d sequence st).2 = trace st.
Proof.
  intros Hk. unfold detect.
  destruct (has_key "size" d) eqn:Hs.
  2:{ apply has_key_false in Hs. unfold high_volume_rule.
      rewrite (bind_Raise _ _ _ _ _ (bind_Raise _ _ _ _ _
                 (getitem_None _ _ _ Hs))). eauto. }
  apply has_key_true in Hs as [size Hs].
  destruct (has_key "symbol" d) eqn:Hy.
  2:{ apply has_key_false in Hy. unfold high_volume_rule.
      rewrite bind_assoc, (bind_Ok _ _ _ _ _ (getitem_Some _ _ _ _ Hs)).
      rewrite bind_assoc, (bind_Raise _ _ _ _ _ (getitem_None _ _ _ Hy)).
      eauto. }
  apply has_key_true in Hy as [symbol Hy].
  destruct (has_key "price" d) eqn:Hp; [done |].
  apply has_key_false in Hp.
  apply bind_elim; [intros hv st1 E1 | intros e st1 E1];
    (assert (H1 : trace st1 = trace st)
       by (pose proof (keeps_high_volume_rule (same trace) d
                         ltac:(frame_solve) st) as H;
           by rewrite E1 in H)).
  - unfold rapid_price_change.
    rewrite bind_assoc, (bind_Ok _ _ _ _ _ (getitem_Some _ _ _ _ Hy)).
    rewrite bind_assoc, (bind_Raise _ _ _ _ _ (getitem_None _ _ _ Hp)).
    eauto.
  - split; [| done]. left. simpl. f_equal.
    destruct size as [q | t].
    + by rewrite (high_volume_rule_run _ _ _ _ Hs Hy) in E1.
    + pose proof (high_volume_rule_text st _ _ _ Hs Hy) as H.
      rewrite E1 in H. simpl in H. congruence.
Qed.

Lemma malformed_record_missing d sequence :
  d !! "sequence" = Some sequence →
  negb (well_formed_record d) = true →
  has_key "symbol" d && has_key "price" d && has_key "size" d = false.
Proof.
  intros Hq Hm. unfold well_formed_record, has_key in *. rewrite Hq in Hm.
  simpl in Hm. by apply negb_true_iff in Hm.
Qed.

(** C4, amended.  A malformed payload never leads to a publication.  When
    it is text on which json.loads raises json.JSONDecodeError,
    [process_trade] prints the failure, leaves everything else as it was
    and returns.  When json.loads raises another exception, that exception
    reaches the caller, the state being as it was.  When the payload
    decodes (to something that is not a record, or to a record with a field
    missing) and is not dropped as a duplicate, a TypeError or a KeyError
    reaches the caller. *)
Theorem malformed_payload st raw :
  malformed raw = true →
  let r := process_trade raw st in
  produced (trace r.2) = produced (trace st)
  ∧ (∀ s, raw = PyStr s → json_loads s = JSONDecodeError →
       r = (Ok tt,
            State (high_volume_threshold st)
                  (rapid_price_change_threshold st)
                  (transaction_history st) (fit_prices_all st)
                  (is_fitted st) (isolation_forest st)
                  (processed_sequence st)
                  (trace st ++ [PrintFailedToParse s])))
  ∧ (∀ s e, raw = PyStr s → json_loads s = LoadsRaises e →
       r = (Raise e, st))
  ∧ (∀ obj, decode raw = Some obj →
       (∀ sequence, field "sequence" raw = Some sequence →
                    key_of sequence ∉ processed_sequence st) →
       r.1 = Raise TypeError ∨ ∃ k, r.1 = Raise (KeyError k)).
Proof.
  intros Hm r. subst r. unfold malformed in Hm.
  refine (conj _ (conj _ (conj _ _))).
  - destruct (decode raw) as [[d | q | s] |] eqn:D.
    + rewrite (process_trade_decoded _ _ D).
      destruct (d !! "sequence") as [sequence |] eqn:Hq.
      * destruct (decide (key_of sequence ∈ processed_sequence st))
          as [Hin | Hin].
        -- by rewrite (process_decoded_seen _ _ _ Hq Hin).
        -- rewrite (process_decoded_fresh _ _ _ Hq Hin). f_equal.
           by rewrite (proj2 (detect_missing_field _ _ _
                                (malformed_record_missing _ _ Hq Hm))).
      * unfold process_decoded, subscript.
        by rewrite (bind_Raise _ _ _ _ _ (getitem_None _ _ _ Hq)).
    + by rewrite (process_trade_decoded _ _ D).
    + by rewrite (process_trade_decoded _ _ D).
    + destruct raw as [d | q | s]; try done. simpl in D.
      unfold process_trade. destruct (json_loads s); [done | | done].
      unfold emit, modify. simpl. rewrite produced_app. simpl.
      by rewrite app_nil_r.
  - intros s -> E. unfold process_trade. by rewrite E.
  - intros s e -> E. unfold process_trade. by rewrite E.
  - intros obj D Hfresh. rewrite D in Hm.
    rewrite (process_trade_decoded _ _ D).
    destruct obj as [d | q | s]; [| by left ..].
    destruct (d !! "sequence") as [sequence |] eqn:Hq.
    + rewrite (process_decoded_fresh _ _ _ Hq).
      * apply detect_missing_field. by eapply malformed_record_missing.
      * apply Hfresh. unfold field. by rewrite D.
    + unfold process_decoded, subscript.
      rewrite (bind_Raise _ _ _ _ _ (getitem_None _ _ _ Hq)). eauto.
Qed.

Lemma scorer_appends d price st :
  d !! "price" = Some price →
  fit_prices_all (isolation_forest_anomaly d st).2
  = fit_prices_all st ++ [price].
Proof.
  intros Hp. unfold isolation_forest_anomaly.
  rewrite (bind_Ok _ _ _ _ _ (getitem_Some _ _ _ _ Hp)).
  unfold bind at 1, modify at 1.
  by rewrite (keeps_score_price (same fit_prices_all) price
                ltac:(frame_solve) ltac:(frame_solve) _).
Qed.

Lemma keeps_publish {X} (f : state → X) d sequence anomalies :
  (∀ st e, f (emit e st).2 = f st) →
  keeps (same f) (publish d sequence anomalies).
Proof.
  intros He st. unfold publish, same.
  destruct anomalies as [| l ls]; [done |].
  set (m := Message sequence (delete "anomalies" d) (l :: ls)).
  transitivity (f (emit (PrintAnomalyDetected m) st).2); [| apply He].
  exact (He (emit (PrintAnomalyDetected m) st).2 (Produce m)).
Qed.

(** After the scorer only the publication follows. *)
Lemma scorer_then_publish {X} (f : state → X) d (k : bool → M unit) st :
  (∀ ifa, keeps (same f) (k ifa)) →
  f (bind (isolation_forest_anomaly d) k st).2
  = f (isolation_forest_anomaly d st).2.
Proof.
  intros Hk. unfold bind.
  destruct (isolation_forest_anomaly d st) as [[ifa | e] st']; [| done].
  apply Hk.
Qed.

(** The two rules on a record of numbers whose symbol has no history, or
    a last price that is a non-zero number from which the change is
    computed: both return, and the price is in the history. *)
Lemma rules_run st d sequence symbol p size :
  d !! "symbol" = Some symbol →
  d !! "price" = Some (VNum p) → d !! "size" = Some (VNum size) →
  let h := history_of st (key_of symbol) in
  (h = [] ∨ ∃ l x c, last h = Some (VNum l) ∧ ¬ (l == 0)%Q
                     ∧ number_sub p l = Ok x ∧ number_truediv x l = Ok c) →
  ∃ hv rp st2,
    detect d sequence st =
      bind (isolation_forest_anomaly d)
        (λ ifa, publish d sequence
                  (when_label hv HighVolume
                   ++ when_label rp RapidPriceChange
                   ++ when_label ifa IsolationForestLabel)) st2
    ∧ transaction_history st2 !! key_of symbol
      = Some (deque_append (VNum p) h)
    ∧ fit_prices_all st2 = fit_prices_all st
    ∧ processed_sequence st2 = processed_sequence st.
Proof.
  intros Hy Hp Hs h Hh. unfold detect.
  rewrite (bind_Ok _ _ _ _ _ (high_volume_rule_run _ _ _ _ Hs Hy)).
  simpl.
  set (st1 := set_high_volume_threshold _ st).
  assert (H1 : history_of st1 (key_of symbol) = h) by done.
  destruct Hh as [Hnil | (l & x & c & Hl & Hz & Hx & Hc)].
  - rewrite (bind_Ok _ _ _ _ _
               (rapid_price_change_first st1 d symbol _ Hy Hp
                  ltac:(by rewrite H1))).
    do 3 eexists. split; [reflexivity |]. simpl.
    by rewrite lookup_insert_eq, Hnil.
  - unfold h, history_of in Hl, H1 |- *.
    destruct (transaction_history st !! key_of symbol) as [h0 |] eqn:E0;
      [| done].
    simpl in *.
    rewrite (bind_Ok _ _ _ _ _
               (rapid_price_change_next st1 d symbol p h0 l x c
                  Hy Hp E0 Hl Hz Hx Hc)).
    do 3 eexists. split; [reflexivity |]. simpl.
    by rewrite lookup_insert_eq.
Qed.

(** C10, amended.  No field value is checked: for a record with the four
    fields, price and size being numbers (zero and negative ones included)
    and the sequence not seen before, [process_trade] records the sequence
    and appends the price to the symbol's history and to the corpus,
    provided the symbol has no history yet, or its last recorded price is a
    non-zero number and the subtraction and the division of line 50 return
    (they raise OverflowError for an int too large for a float). *)
Theorem no_value_validation st d sequence symbol p size :
  d !! "sequence" = Some sequence → d !! "symbol" = Some symbol →
  d !! "price" = Some (VNum p) → d !! "size" = Some (VNum size) →
  key_of sequence ∉ processed_sequence st →
  let h := history_of st (key_of symbol) in
  (h = [] ∨ ∃ l x c, last h = Some (VNum l) ∧ ¬ (l == 0)%Q
                     ∧ number_sub p l = Ok x ∧ number_truediv x l = Ok c) →
  let st' := (process_trade (PyDict d) st).2 in
  history_of st' (key_of symbol) = deque_append (VNum p) h
  ∧ fit_prices_all st' = fit_prices_all st ++ [VNum p]
  ∧ key_of sequence ∈ processed_sequence st'.
Proof.
  intros Hq Hy Hp Hs Hin h Hh st'.
  split; [| split]; [| | by apply process_decoded_marks].
  - subst st'. simpl. rewrite (process_decoded_fresh _ _ _ Hq Hin).
    set (st0 := set_processed_sequence _ st).
    destruct (rules_run st0 d sequence symbol p size Hy Hp Hs Hh)
      as (hv & rp & st2 & -> & Hh2 & Hc2 & _).
    unfold history_of.
    rewrite (scorer_then_publish
               (λ st, transaction_history st !! key_of symbol));
      [| intros ifa; apply keeps_publish; frame_solve].
    rewrite (keeps_isolation_forest_anomaly
               (same (λ st, transaction_history st !! key_of symbol)) d
               ltac:(frame_solve) ltac:(frame_solve) ltac:(frame_solve) _).
    by rewrite Hh2.
  - subst st'. simpl. rewrite (process_decoded_fresh _ _ _ Hq Hin).
    set (st0 := set_processed_sequence _ st).
    destruct (rules_run st0 d sequence symbol p size Hy Hp Hs Hh)
      as (hv & rp & st2 & -> & Hh2 & Hc2 & _).
    rewrite (scorer_then_publish fit_prices_all);
      [| intros ifa; apply keeps_publish; frame_solve].
    by rewrite (scorer_appends _ _ _ Hp), Hc2.
Qed.

End Properties.

(** * Further properties of the pipeline *)

Section Further.

Context `{LIB : Libraries}.

Implicit Types (st : state) (d : gmap string value) (raw : pyobj).

Local Arguments Nat.modulo : simpl never.
Local Arguments Nat.ltb : simpl never.
Local Arguments Nat.eqb : simpl never.

(** Closes a frame goal whose update leaves the observation alone. *)
Ltac frame_auto :=
  repeat intro;
  repeat match goal with st : state |- _ => destruct st end;
  unfold same, preserves, emit, modify in *; simpl in *; try done.

Global Instance preserves_preorder (I : state → Prop) : PreOrder (preserves I).
Proof.
  split; [intros st H; exact H |].
  intros st1 st2 st3 H12 H23 H. exact (H23 (H12 H)).
Qed.

Lemma same_preserves {X} (f : state → X) (I : state → Prop) st st' :
  (∀ s s', f s' = f s → I s → I s') → same f st st' → preserves I st st'.
Proof. intros H E HI. by apply (H st st'). Qed.

(** ** How a step is put together *)

(** A frame that each detector and each bookkeeping step keeps is kept by
    [process_trade]. *)
Lemma process_trade_keeps (R : relation state) `{!PreOrder R} raw :
  (∀ s st, R st (set_processed_sequence s st)) →
  (∀ e, keeps R (emit e)) →
  (∀ d, decode raw = Some (PyDict d) → keeps R (high_volume_rule d)) →
  (∀ d, decode raw = Some (PyDict d) → keeps R (rapid_price_change d)) →
  (∀ d, decode raw = Some (PyDict d) → keeps R (isolation_forest_anomaly d)) →
  keeps R (process_trade raw).
Proof.
  intros Hs He Hv Hr Hi.
  assert (Hdec : ∀ obj, decode raw = Some obj → keeps R (process_decoded obj)).
  { intros obj D. unfold process_decoded.
    apply (keeps_bind R); [apply (keeps_subscript R) | intros sequence].
    apply (keeps_bind R); [apply (keeps_gets R) | intros seen].
    destruct (decide _); [apply (keeps_ret R) |].
    apply (keeps_bind R); [apply (keeps_modify R); intros; apply Hs |].
    intros _. destruct obj as [d | |]; [| apply (keeps_raise R) ..].
    unfold detect.
    apply (keeps_bind R); [by apply Hv | intros hv].
    apply (keeps_bind R); [by apply Hr | intros rp].
    apply (keeps_bind R); [by apply Hi | intros ifa].
    unfold publish. destruct (_ ++ _); [apply (keeps_ret R) |].
    apply (keeps_bind R); [apply He | intros _; apply He]. }
  unfold process_trade. destruct raw as [d | q | s]; [by apply Hdec .. |].
  simpl in Hdec.
  destruct (json_loads s) as [obj | | e];
    [by apply Hdec | apply He | apply (keeps_raise R)].
Qed.

Lemma run_keeps (R : relation state) `{!PreOrder R} raws st :
  (∀ raw, raw ∈ raws → keeps R (process_trade raw)) →
  R st (run raws st).
Proof.
  revert st. induction raws as [| raw raws IH]; intros st H; [done |].
  simpl. etrans; [apply (H raw); by left |].
  apply IH. intros raw' Hin. apply H. by right.
Qed.

(** ** The Rapid-Price-Change rule on every input *)

Lemma state_eta st :
  set_rapid_price_change_threshold (rapid_price_change_threshold st)
    (set_transaction_history (transaction_history st) st) = st.
Proof. by destruct st. Qed.

Lemma lookup_history_present st symbol h :
  transaction_history st !! key_of symbol = Some h →
  lookup_history symbol st = (Ok h, st).
Proof.
  intros Hh. rewrite lookup_history_run. unfold history_of. rewrite Hh.
  rewrite defaultdict_get_present by (by rewrite Hh). by destruct st.
Qed.

Lemma rapid_price_change_no_symbol st d :
  d !! "symbol" = None →
  rapid_price_change d st = (Raise (KeyError "symbol"), st).
Proof.
  intros Hy. unfold rapid_price_change.
  by rewrite (bind_Raise _ _ _ _ _ (getitem_None _ _ _ Hy)).
Qed.

Lemma rapid_price_change_no_price st d symbol :
  d !! "symbol" = Some symbol → d !! "price" = None →
  rapid_price_change d st = (Raise (KeyError "price"), st).
Proof.
  intros Hy Hp. unfold rapid_price_change.
  rewrite (bind_Ok _ _ _ _ _ (getitem_Some _ _ _ _ Hy)).
  by rewrite (bind_Raise _ _ _ _ _ (getitem_None _ _ _ Hp)).
Qed.

Lemma rapid_price_change_not_numbers st d symbol price h last_price :
  d !! "symbol" = Some symbol → d !! "price" = Some price →
  transaction_history st !! key_of symbol = Some h →
  last h = Some last_price →
  as_number price = None ∨ as_number last_price = None →
  rapid_price_change d st = (Raise TypeError, st).
Proof.
  intros Hy Hp Hh Hl Hn. unfold rapid_price_change.
  rewrite (bind_Ok _ _ _ _ _ (getitem_Some _ _ _ _ Hy)).
  rewrite (bind_Ok _ _ _ _ _ (getitem_Some _ _ _ _ Hp)).
  rewrite (bind_Ok _ _ _ _ _ (lookup_history_present _ _ _ Hh)).
  rewrite Hl. unfold bind at 1. unfold py_sub.
  destruct Hn as [-> | Hn]; [done |]. rewrite Hn.
  by destruct (as_number price).
Qed.

(** What one call of the rule does to the state, whatever it returns: the
    threshold map may gain the default for the symbol, and the history map
    is as before or has the price recorded under the symbol. *)
Lemma rapid_price_change_effect d st :
  ∃ mh mt,
    (rapid_price_change d st).2
    = set_rapid_price_change_threshold mt (set_transaction_history mh st)
    ∧ (∀ k, default default_price_change_threshold (mt !! k)
            = price_change_threshold st k)
    ∧ (mh = transaction_history st
       ∨ ∃ symbol price,
           d !! "symbol" = Some symbol ∧ d !! "price" = Some price
           ∧ mh = <[key_of symbol :=
                      deque_append price (history_of st (key_of symbol))]>
                    (transaction_history st)).
Proof.
  assert (Hnone : ∃ mh mt,
            st = set_rapid_price_change_threshold mt
                   (set_transaction_history mh st)
            ∧ (∀ k, default default_price_change_threshold (mt !! k)
                    = price_change_threshold st k)
            ∧ (mh = transaction_history st
               ∨ ∃ symbol price,
                   d !! "symbol" = Some symbol ∧ d !! "price" = Some price
                   ∧ mh = <[key_of symbol :=
                              deque_append price
                                (history_of st (key_of symbol))]>
                            (transaction_history st))).
  { exists (transaction_history st), (rapid_price_change_threshold st).
    rewrite state_eta. by eauto. }
  destruct (d !! "symbol") as [symbol |] eqn:Hy;
    [| by rewrite (rapid_price_change_no_symbol _ _ Hy)].
  destruct (d !! "price") as [price |] eqn:Hp;
    [| by rewrite (rapid_price_change_no_price _ _ _ Hy Hp)].
  destruct (history_of st (key_of symbol)) as [| v h'] eqn:Hh.
  { rewrite (rapid_price_change_first _ _ _ _ Hy Hp Hh). simpl.
    exists (<[key_of symbol := deque_append price []]> (transaction_history st)),
           (rapid_price_change_threshold st).
    split; [by destruct st |]. split; [done |].
    right. exists symbol, price. by rewrite Hh. }
  unfold history_of in Hh.
  destruct (transaction_history st !! key_of symbol) as [h |] eqn:E;
    [| done].
  simpl in Hh. subst h.
  destruct (last (v :: h')) as [last_price |] eqn:Hl;
    [| by apply last_None in Hl].
  destruct (as_number price) as [p |] eqn:Ep.
  2:{ rewrite (rapid_price_change_not_numbers _ _ _ _ _ _ Hy Hp E Hl);
        [done | by left]. }
  destruct (as_number last_price) as [l |] eqn:El.
  2:{ rewrite (rapid_price_change_not_numbers _ _ _ _ _ _ Hy Hp E Hl);
        [done | by right]. }
  destruct price as [p' |]; [| done]. injection Ep as ->.
  destruct last_price as [l' |]; [| done]. injection El as ->.
  destruct (number_sub p l) as [x | e] eqn:Hx.
  2:{ by rewrite (rapid_price_change_sub_raises _ _ _ _ _ _ _ Hy Hp E Hl Hx). }
  destruct (is_zero l) eqn:Hz.
  { apply is_zero_true in Hz.
    by rewrite (rapid_price_change_zero _ _ _ _ _ _ _ Hy Hp E Hl Hz Hx). }
  apply is_zero_false in Hz.
  destruct (number_truediv x l) as [c | e] eqn:Hc.
  2:{ by rewrite (rapid_price_change_div_raises _ _ _ _ _ _ _ _
                    Hy Hp E Hl Hz Hx Hc). }
  rewrite (rapid_price_change_next _ _ _ _ _ _ _ _ Hy Hp E Hl Hz Hx Hc).
  simpl.
  eexists _, _. split; [reflexivity |]. split.
  - intros k. apply defaultdict_get_lookup.
  - right. exists symbol, (VNum p). unfold history_of. by rewrite E.
Qed.

(** ** The states a step can end in *)

(** [process_trade] ends in the state it started from, or that state with
    the decode failure printed, or, for a record with a new sequence, in
    the state one of the detectors or the publication left. *)
Lemma process_trade_cases raw st (P : state → Prop) :
  P st →
  (∀ s, raw = PyStr s → json_loads s = JSONDecodeError →
        P (emit (PrintFailedToParse s) st).2) →
  (∀ d sequence,
     decode raw = Some (PyDict d) → d !! "sequence" = Some sequence →
     key_of sequence ∉ processed_sequence st →
     let st0 := set_processed_sequence
                  ({[key_of sequence]} ∪ processed_sequence st) st in
     let st1 := (high_volume_rule d st0).2 in
     let st2 := (rapid_price_change d st1).2 in
     let st3 := (isolation_forest_anomaly d st2).2 in
     P st1 ∧ P st2 ∧ P st3
     ∧ ∀ hv rp ifa,
         P (publish d sequence
              (when_label hv HighVolume ++ when_label rp RapidPriceChange
               ++ when_label ifa IsolationForestLabel) st3).2) →
  P (process_trade raw st).2.
Proof.
  intros Hst Hfail Hrun.
  assert (Hdec : ∀ obj, decode raw = Some obj → P (process_decoded obj st).2).
  { intros obj D. destruct obj as [d | q | s]; [| done ..].
    destruct (d !! "sequence") as [sequence |] eqn:Hq.
    2:{ unfold process_decoded, subscript.
        by rewrite (bind_Raise _ _ _ _ _ (getitem_None _ _ _ Hq)). }
    destruct (decide (key_of sequence ∈ processed_sequence st)) as [Hin | Hin].
    { by rewrite (process_decoded_seen _ _ _ Hq Hin). }
    rewrite (process_decoded_fresh _ _ _ Hq Hin).
    destruct (Hrun d sequence D Hq Hin) as (H1 & H2 & H3 & H4).
    unfold detect, bind.
    destruct (high_volume_rule d _) as [[hv | e] s1]; simpl in *;
      [| exact H1].
    destruct (rapid_price_change d s1) as [[rp | e] s2]; simpl in *;
      [| exact H2].
    destruct (isolation_forest_anomaly d s2) as [[ifa | e] s3]; simpl in *;
      [| exact H3].
    apply H4. }
  unfold process_trade. destruct raw as [d | q | s]; [by apply Hdec .. |].
  simpl in Hdec. destruct (json_loads s) as [obj | | e] eqn:E;
    [by apply Hdec | by apply Hfail | done].
Qed.

Lemma high_volume_rule_keeps {X} (f : state → X) d st :
  (∀ m s, f (set_high_volume_threshold m s) = f s) →
  f (high_volume_rule d st).2 = f st.
Proof.
  intros Hf. destruct (high_volume_rule_state st d) as (m & -> & _). apply Hf.
Qed.

Lemma rapid_price_change_keeps {X} (f : state → X) d st :
  (∀ mh mt s, f (set_rapid_price_change_threshold mt
                   (set_transaction_history mh s)) = f s) →
  f (rapid_price_change d st).2 = f st.
Proof.
  intros Hf. destruct (rapid_price_change_effect d st) as (mh & mt & -> & _).
  apply Hf.
Qed.

Lemma publish_trace d sequence anomalies st :
  (publish d sequence anomalies st).2 = st
  ∨ ∃ m, (publish d sequence anomalies st).2
         = (emit (Produce m) (emit (PrintAnomalyDetected m) st).2).2.
Proof. unfold publish. destruct anomalies; [by left | right; eauto]. Qed.

Lemma scorer_no_price d st :
  d !! "price" = None →
  isolation_forest_anomaly d st = (Raise (KeyError "price"), st).
Proof.
  intros Hp. unfold isolation_forest_anomaly.
  by rewrite (bind_Raise _ _ _ _ _ (getitem_None _ _ _ Hp)).
Qed.

Lemma field_of_decode k raw d :
  decode raw = Some (PyDict d) → field k raw = d !! k.
Proof. intros D. unfold field. by rewrite D. Qed.

(** ** Histories *)

Lemma deque_append_drop {A} (x : A) (h : list A) :
  deque_append x h = drop (length h + 1 - maxlen) h ++ [x].
Proof.
  unfold deque_append, maxlen. rewrite length_app. simpl length.
  by rewrite drop_app_le by lia.
Qed.

Lemma deque_append_length {A} (x : A) (h : list A) :
  length (deque_append x h) ≤ maxlen.
Proof.
  rewrite deque_append_drop, length_app, length_drop. unfold maxlen.
  simpl length. lia.
Qed.

(** X1.  The per-symbol histories are bounded: no stream of payloads, from
    a state whose histories hold at most 100 prices each, leads to a state
    where some history holds more. *)
Theorem histories_stay_bounded raws st :
  histories_bounded st → histories_bounded (run raws st).
Proof.
  apply (run_keeps (preserves histories_bounded)). intros raw _.
  apply (process_trade_keeps (preserves histories_bounded)).
  - intros s [] H. exact H.
  - intros e [] H. exact H.
  - intros d _ s. unfold preserves, histories_bounded.
    by rewrite (high_volume_rule_keeps transaction_history)
      by (by intros ? []).
  - intros d _ s Hb.
    destruct (rapid_price_change_effect d s) as (mh & mt & -> & _ & Hmh).
    intros k h. simpl.
    destruct Hmh as [-> | (symbol & price & _ & _ & ->)]; [apply Hb |].
    destruct (decide (key_of symbol = k)) as [<- | Hne].
    + rewrite lookup_insert_eq. intros [= <-]. apply deque_append_length.
    + rewrite lookup_insert_ne by done. apply Hb.
  - intros d _ s. unfold preserves, histories_bounded.
    by rewrite (keeps_isolation_forest_anomaly (same transaction_history) d
                  ltac:(frame_auto) ltac:(frame_auto) ltac:(frame_auto) s).
Qed.

(** X2.  One payload changes the histories by at most one entry: they are
    as before, or the payload's price has been recorded under the
    payload's symbol (every other symbol's history being as before). *)
Theorem history_recorded_or_kept raw st :
  let st' := (process_trade raw st).2 in
  transaction_history st' = transaction_history st
  ∨ ∃ symbol price,
      field "symbol" raw = Some symbol ∧ field "price" raw = Some price
      ∧ transaction_history st'
        = <[key_of symbol :=
              deque_append price (history_of st (key_of symbol))]>
            (transaction_history st).
Proof.
  simpl. apply process_trade_cases; [by left | by left |].
  intros d sequence D Hq Hin st0 st1 st2 st3.
  assert (H1 : transaction_history st1 = transaction_history st).
  { unfold st1. by rewrite (high_volume_rule_keeps transaction_history)
      by (by intros ? []). }
  assert (H2 : transaction_history st2 = transaction_history st
          ∨ ∃ symbol price,
              field "symbol" raw = Some symbol
              ∧ field "price" raw = Some price
              ∧ transaction_history st2
                = <[key_of symbol :=
                      deque_append price (history_of st (key_of symbol))]>
                    (transaction_history st)).
  { unfold st2.
    destruct (rapid_price_change_effect d st1) as (mh & mt & -> & _ & Hmh).
    simpl. destruct Hmh as [-> | (symbol & price & Hy & Hp & ->)];
      [by left | right].
    exists symbol, price. rewrite !(field_of_decode _ _ _ D).
    unfold history_of. by rewrite H1. }
  assert (H3 : transaction_history st3 = transaction_history st2).
  { unfold st3.
    by rewrite (keeps_isolation_forest_anomaly (same transaction_history) d
                  ltac:(frame_auto) ltac:(frame_auto) ltac:(frame_auto) st2). }
  split; [by left |]. split; [done |]. split; [by rewrite H3 |].
  intros hv rp ifa.
  destruct (publish_trace d sequence
              (when_label hv HighVolume ++ when_label rp RapidPriceChange
               ++ when_label ifa IsolationForestLabel) st3)
    as [-> | [m ->]]; simpl; by rewrite H3.
Qed.

(** X3.  The window slides: when the rule computes the change from a last
    price [l] that is a non-zero number (the subtraction and the division
    of line 50 return) and records the price after a history [h] of at most
    100 prices, the new history is [h] with the price at its end, less the
    oldest price if [h] was full; its last entry is the price just seen. *)
Theorem history_window st d symbol p h l x c :
  d !! "symbol" = Some symbol → d !! "price" = Some (VNum p) →
  transaction_history st !! key_of symbol = Some h →
  last h = Some (VNum l) → ¬ (l == 0)%Q →
  number_sub p l = Ok x → number_truediv x l = Ok c →
  length h ≤ 100 →
  let h' := history_of (rapid_price_change d st).2 (key_of symbol) in
  (length h < 100 → h' = h ++ [VNum p])
  ∧ (length h = 100 → h' = drop 1 h ++ [VNum p])
  ∧ last h' = Some (VNum p)
  ∧ length h' ≤ 100.
Proof.
  intros Hy Hp Hh Hl Hz Hx Hc Hlen.
  rewrite (rapid_price_change_next _ _ _ _ _ _ _ _ Hy Hp Hh Hl Hz Hx Hc).
  unfold history_of, recorded. simpl. rewrite lookup_insert_eq. simpl.
  rewrite deque_append_drop. unfold maxlen.
  split; [| split; [| split]].
  - intros Hlt. by replace (length h + 1 - 100) with 0 by lia.
  - intros Heq. by replace (length h + 1 - 100) with 1 by lia.
  - apply last_snoc.
  - rewrite length_app, length_drop. simpl. lia.
Qed.

(** ** Thresholds *)

Lemma process_trade_thresholds raw st k :
  volume_threshold (process_trade raw st).2 k = volume_threshold st k
  ∧ price_change_threshold (process_trade raw st).2 k
    = price_change_threshold st k.
Proof.
  pose (f := λ s : state, (volume_threshold s k, price_change_threshold s k)).
  enough (H : f (process_trade raw st).2 = f st) by (by injection H).
  apply (process_trade_keeps (same f)).
  - by intros s [].
  - by intros e [].
  - intros d _ s.
    destruct (high_volume_rule_state s d) as (m & -> & Hm & _).
    unfold same, f, volume_threshold, price_change_threshold. simpl.
    by rewrite Hm.
  - intros d _ s.
    destruct (rapid_price_change_effect d s) as (mh & mt & -> & Hmt & _).
    unfold same, f, volume_threshold, price_change_threshold. simpl.
    by rewrite Hmt.
  - intros d _. apply keeps_isolation_forest_anomaly; [apply _ | ..];
      by intros ? [].
Qed.

(** X4.  No payload changes the threshold in force for any symbol, so from
    the initial state both thresholds are the defaults, 10000 and the float
    0.05, for every symbol and for ever. *)
Theorem thresholds_never_change raws st k :
  volume_threshold (run raws st) k = volume_threshold st k
  ∧ price_change_threshold (run raws st) k = price_change_threshold st k
  ∧ volume_threshold (run raws initial_state) k = default_volume_threshold
  ∧ price_change_threshold (run raws initial_state) k
    = default_price_change_threshold.
Proof.
  assert (H : ∀ s, volume_threshold (run raws s) k = volume_threshold s k
                   ∧ price_change_threshold (run raws s) k
                     = price_change_threshold s k).
  { induction raws as [| raw raws IH]; intros s; [done |]. simpl.
    destruct (IH (process_trade raw s).2) as [-> ->].
    apply process_trade_thresholds. }
  destruct (H st) as [-> ->]. destruct (H initial_state) as [-> ->].
  done.
Qed.

(** ** Sequences *)

Lemma process_trade_sequences raw st :
  processed_sequence (process_trade raw st).2 = processed_sequence st
  ∨ ∃ sequence,
      field "sequence" raw = Some sequence
      ∧ processed_sequence (process_trade raw st).2
        = {[key_of sequence]} ∪ processed_sequence st.
Proof.
  apply process_trade_cases; [by left | by left |].
  intros d sequence D Hq Hin st0 st1 st2 st3.
  assert (H0 : processed_sequence st0
               = {[key_of sequence]} ∪ processed_sequence st) by done.
  assert (H1 : processed_sequence st1 = processed_sequence st0).
  { unfold st1. by rewrite (high_volume_rule_keeps processed_sequence)
      by (by intros ? []). }
  assert (H2 : processed_sequence st2 = processed_sequence st0).
  { unfold st2. by rewrite (rapid_price_change_keeps processed_sequence)
      by (by intros ? ? []). }
  assert (H3 : processed_sequence st3 = processed_sequence st0).
  { unfold st3.
    by rewrite (keeps_isolation_forest_anomaly (same processed_sequence) d
                  ltac:(frame_auto) ltac:(frame_auto) ltac:(frame_auto) st2). }
  assert (Hf : field "sequence" raw = Some sequence)
    by (by rewrite (field_of_decode _ _ _ D)).
  repeat split; try intros hv rp ifa; right; exists sequence;
    (split; [done |]).
  1-3: congruence.
  destruct (publish_trace d sequence
              (when_label hv HighVolume ++ when_label rp RapidPriceChange
               ++ when_label ifa IsolationForestLabel) st3)
    as [-> | [m ->]]; simpl; congruence.
Qed.

(** X5.  The set of seen sequences never forgets, and holds nothing but
    what it held at the start and the sequences of the payloads of the
    stream: a sequence that no payload carried is never taken for a
    duplicate. *)
Theorem seen_sequences_come_from_payloads raws st :
  processed_sequence st ⊆ processed_sequence (run raws st)
  ∧ ∀ k, k ∈ processed_sequence (run raws st) →
         k ∈ processed_sequence st
         ∨ ∃ raw sequence, raw ∈ raws
             ∧ field "sequence" raw = Some sequence ∧ key_of sequence = k.
Proof.
  revert st. induction raws as [| raw raws IH]; intros st.
  { split; [done | by left]. }
  simpl. destruct (IH (process_trade raw st).2) as [Hsub Hfrom].
  destruct (process_trade_sequences raw st) as [E | (sequence & Hf & E)].
  - rewrite E in Hsub, Hfrom. split; [done |].
    intros k Hk. destruct (Hfrom k Hk) as [? | (raw' & s' & Hin & ? & ?)];
      [by left | right].
    exists raw', s'. split; [by right | done].
  - rewrite E in Hsub, Hfrom.
    split; [etrans; [apply union_subseteq_r | exact Hsub] |].
    intros k Hk. destruct (Hfrom k Hk) as [Hu | (raw' & s' & Hin & ? & ?)].
    + apply elem_of_union in Hu as [Hu | Hu]; [right | by left].
      apply elem_of_singleton in Hu. exists raw, sequence.
      split; [by left | done].
    + right. exists raw', s'. split; [by right | done].
Qed.

Lemma key_of_numbers (a b : Q) :
  key_of (VNum a) = key_of (VNum b) ↔ (a == b)%Q.
Proof.
  simpl. split.
  - intros [= Hn Hd].
    rewrite <- (Qred_correct a), <- (Qred_correct b).
    destruct (Qred a), (Qred b). simpl in *. by subst.
  - intros E. by rewrite (Qred_complete _ _ E).
Qed.

(** X6.  Sequences are compared as numbers: after a record with the
    numeric sequence [a] has been handed in, a numeric sequence [b] that
    was not seen before counts as seen exactly when [a] and [b] are equal
    numbers (1 and 1.0 are one sequence). *)
Theorem numeric_sequences_compare st d a b :
  d !! "sequence" = Some (VNum a) →
  key_of (VNum b) ∉ processed_sequence st →
  key_of (VNum b) ∈ processed_sequence (process_trade (PyDict d) st).2
  ↔ (a == b)%Q.
Proof.
  intros Hq Hb. rewrite <- key_of_numbers. split.
  - intros Hin.
    destruct (process_trade_sequences (PyDict d) st)
      as [E | (sequence & Hf & E)]; rewrite E in Hin; [done |].
    unfold field in Hf. simpl in Hf. rewrite Hq in Hf. injection Hf as <-.
    apply elem_of_union in Hin as [Hin | Hin]; [| done].
    by apply elem_of_singleton in Hin.
  - intros <-. by apply process_decoded_marks.
Qed.

(** ** The corpus *)

(** X7.  One payload appends at most one sample to the corpus, and that
    sample is the payload's price; the corpus is never shortened or
    rewritten. *)
Theorem corpus_appended_or_kept raw st :
  let st' := (process_trade raw st).2 in
  fit_prices_all st' = fit_prices_all st
  ∨ ∃ price, field "price" raw = Some price
      ∧ fit_prices_all st' = fit_prices_all st ++ [price].
Proof.
  simpl. apply process_trade_cases; [by left | by left |].
  intros d sequence D Hq Hin st0 st1 st2 st3.
  assert (H1 : fit_prices_all st1 = fit_prices_all st).
  { unfold st1. by rewrite (high_volume_rule_keeps fit_prices_all)
      by (by intros ? []). }
  assert (H2 : fit_prices_all st2 = fit_prices_all st).
  { unfold st2. by rewrite (rapid_price_change_keeps fit_prices_all)
      by (by intros ? ? []). }
  assert (H3 : fit_prices_all st3 = fit_prices_all st
          ∨ ∃ price, field "price" raw = Some price
              ∧ fit_prices_all st3 = fit_prices_all st ++ [price]).
  { unfold st3. destruct (d !! "price") as [price |] eqn:Hp.
    - right. exists price. rewrite (field_of_decode _ _ _ D).
      by rewrite (scorer_appends _ _ _ Hp), H2.
    - left. by rewrite (scorer_no_price _ _ Hp). }
  split; [by left |]. split; [by left |]. split; [done |].
  intros hv rp ifa.
  by destruct (publish_trace d sequence
                 (when_label hv HighVolume ++ when_label rp RapidPriceChange
                  ++ when_label ifa IsolationForestLabel) st3)
    as [-> | [m ->]].
Qed.

(** ** Publication *)

Global Instance quiet_extension_preorder : PreOrder quiet_extension.
Proof.
  split.
  - intros st. exists []. by rewrite app_nil_r.
  - intros st1 st2 st3 (t & E & Ht) (t' & E' & Ht'). exists (t ++ t').
    rewrite E', E, app_assoc, produced_app, Ht, Ht'. done.
Qed.

Lemma quiet_same st st' : trace st' = trace st → quiet_extension st st'.
Proof. intros E. exists []. by rewrite app_nil_r. Qed.

Lemma detectors_quiet d st :
  quiet_extension st (high_volume_rule d st).2
  ∧ quiet_extension st (rapid_price_change d st).2
  ∧ quiet_extension st (isolation_forest_anomaly d st).2.
Proof.
  split; [| split].
  - apply quiet_same. by rewrite (high_volume_rule_keeps trace)
      by (by intros ? []).
  - apply quiet_same. by rewrite (rapid_price_change_keeps trace)
      by (by intros ? ? []).
  - apply (keeps_isolation_forest_anomaly quiet_extension).
    + intros l s. apply quiet_same. by destruct s.
    + intros e He s. exists [e]. split; [by destruct s |].
      by destruct e.
    + intros f s. split; apply quiet_same; by destruct s.
Qed.

Lemma labels_in_order hv rp ifa :
  sublist (when_label hv HighVolume ++ when_label rp RapidPriceChange
           ++ when_label ifa IsolationForestLabel) all_labels.
Proof.
  destruct hv, rp, ifa; simpl; unfold all_labels;
    repeat first [ apply sublist_nil_l | apply sublist_skip
                 | apply sublist_cons ].
Qed.

(** X8.  What is published: one call publishes nothing, or one message,
    for a record; the message is printed and then produced, after events
    that publish nothing; its key is the record's sequence, its value the
    record, and its labels are not empty and come in the order High
    Volume, Rapid Price Change, Isolation Forest. *)
Theorem published_message_shape raw st :
  let st' := (process_trade raw st).2 in
  produced (trace st') = produced (trace st)
  ∨ ∃ m d t,
      decode raw = Some (PyDict d)
      ∧ trace st' = trace st ++ t ++ [PrintAnomalyDetected m; Produce m]
      ∧ produced t = []
      ∧ d !! "sequence" = Some (msg_key m)
      ∧ msg_value m = delete "anomalies" d
      ∧ msg_anomalies m ≠ []
      ∧ sublist (msg_anomalies m) all_labels.
Proof.
  simpl. apply process_trade_cases; [by left | |].
  { intros s _ _. left. unfold emit, modify. simpl.
    rewrite produced_app. simpl. by rewrite app_nil_r. }
  intros d sequence D Hq Hin st0 st1 st2 st3.
  assert (Q1 : quiet_extension st st1).
  { etrans; [| apply detectors_quiet]. by apply quiet_same. }
  assert (Q2 : quiet_extension st st2).
  { etrans; [exact Q1 | apply detectors_quiet]. }
  assert (Q3 : quiet_extension st st3).
  { etrans; [exact Q2 | apply detectors_quiet]. }
  assert (Hquiet : ∀ s, quiet_extension st s →
            produced (trace s) = produced (trace st)).
  { intros s (t & -> & Ht). by rewrite produced_app, Ht, app_nil_r. }
  split; [left; by apply Hquiet |].
  split; [left; by apply Hquiet |].
  split; [left; by apply Hquiet |].
  intros hv rp ifa. pose proof (labels_in_order hv rp ifa) as Hsub.
  unfold publish.
  destruct (_ ++ _) as [| l ls] eqn:E; [left; by apply Hquiet |].
  right. destruct Q3 as (t & Et & Ht).
  eexists (Message sequence (delete "anomalies" d) (l :: ls)), d, t.
  repeat split; try done.
  unfold bind, emit, modify. simpl. rewrite Et.
  by rewrite <- !app_assoc.
Qed.

(** ** Records that lack a field *)

Lemma high_volume_rule_number st d size symbol x :
  d !! "size" = Some size → d !! "symbol" = Some symbol →
  as_number size = Some x →
  ∃ hv st1, high_volume_rule d st = (Ok hv, st1) ∧ trace st1 = trace st.
Proof.
  intros Hs Hy Hx. rewrite (high_volume_rule_run _ _ _ _ Hs Hy), Hx.
  eexists _, _. split; [reflexivity | done].
Qed.

(** X9.  A record with a new sequence that lacks a field raises KeyError
    for the first field it lacks in the order sequence, size, symbol,
    price (the size, if there is one, being a number), and nothing is
    printed or published. *)
Theorem missing_field_error st d k :
  first_missing d = Some k →
  (∀ sequence, d !! "sequence" = Some sequence →
               key_of sequence ∉ processed_sequence st) →
  (∀ size, d !! "size" = Some size → is_Some (as_number size)) →
  (process_trade (PyDict d) st).1 = Raise (KeyError k)
  ∧ trace (process_trade (PyDict d) st).2 = trace st.
Proof.
  intros Hk Hfresh Hnum. simpl. unfold first_missing in Hk.
  destruct (has_key "sequence" d) eqn:Hq.
  2:{ apply has_key_false in Hq. injection Hk as <-.
      unfold process_decoded, subscript.
      by rewrite (bind_Raise _ _ _ _ _ (getitem_None _ _ _ Hq)). }
  apply has_key_true in Hq as [sequence Hq].
  rewrite (process_decoded_fresh _ _ _ Hq (Hfresh _ Hq)). unfold detect.
  destruct (has_key "size" d) eqn:Hs.
  2:{ apply has_key_false in Hs. injection Hk as <-.
      unfold high_volume_rule.
      by rewrite bind_assoc, (bind_Raise _ _ _ _ _ (getitem_None _ _ _ Hs)). }
  apply has_key_true in Hs as [size Hs].
  destruct (has_key "symbol" d) eqn:Hy.
  2:{ apply has_key_false in Hy. injection Hk as <-.
      unfold high_volume_rule.
      rewrite bind_assoc, (bind_Ok _ _ _ _ _ (getitem_Some _ _ _ _ Hs)).
      by rewrite bind_assoc, (bind_Raise _ _ _ _ _ (getitem_None _ _ _ Hy)). }
  apply has_key_true in Hy as [symbol Hy].
  destruct (has_key "price" d) eqn:Hp; [done |].
  apply has_key_false in Hp. injection Hk as <-.
  destruct (Hnum _ Hs) as [x Hx].
  match goal with |- context [bind (high_volume_rule d) _ ?s] =>
    destruct (high_volume_rule_number s d size symbol x Hs Hy Hx)
      as (hv & st1 & E1 & T1)
  end.
  rewrite (bind_Ok _ _ _ _ _ E1).
  by rewrite (bind_Raise _ _ _ _ _ (rapid_price_change_no_price _ _ _ Hy Hp)).
Qed.

(** X10.  A price that is not a number is recorded unchecked when it is
    the first of its symbol, and from then on every trade of that symbol
    raises TypeError in the Rapid-Price-Change rule, the state being left
    as it was (so the symbol never recovers). *)
Theorem string_price_poisons_symbol st d symbol s :
  d !! "symbol" = Some symbol → d !! "price" = Some (VStr s) →
  history_of st (key_of symbol) = [] →
  let st' := (rapid_price_change d st).2 in
  (rapid_price_change d st).1 = Ok false
  ∧ history_of st' (key_of symbol) = [VStr s]
  ∧ ∀ d' symbol' price',
      d' !! "symbol" = Some symbol' → key_of symbol' = key_of symbol →
      d' !! "price" = Some price' →
      rapid_price_change d' st' = (Raise TypeError, st').
Proof.
  intros Hy Hp Hh. simpl.
  rewrite (rapid_price_change_first _ _ _ _ Hy Hp Hh). simpl.
  assert (E : transaction_history (recorded symbol (VStr s) [] st)
              !! key_of symbol = Some [VStr s])
    by (unfold recorded; simpl; by rewrite lookup_insert_eq).
  split; [done |]. split; [unfold history_of; by rewrite E |].
  intros d' symbol' price' Hy' Hk Hp'.
  apply (rapid_price_change_not_numbers _ _ symbol' price' [VStr s] (VStr s));
    [done | done | by rewrite Hk | done | by right].
Qed.

(** ** The scorer on every input *)

(** Opens one call of the scorer up to the warm-up test. *)
Ltac scorer_open Hp :=
  unfold isolation_forest_anomaly, score_price;
  rewrite (bind_Ok _ _ _ _ _ (getitem_Some _ _ _ _ Hp));
  unfold bind at 1; unfold modify at 1; unfold bind at 1; unfold gets at 1;
  simpl.

(** Splits the scorer on every test and library result on its path. *)
Ltac scorer_split :=
  unfold bind, np_div_by, emit, modify, ret, raise, gets, number; simpl;
  repeat match goal with
  | |- context [is_zero ?x] => destruct (is_zero x) eqn:?; simpl
  | |- context [fit ?m ?X] => destruct (fit m X) eqn:?; simpl
  | |- context [is_fitted ?s] => is_var s; destruct (is_fitted s) eqn:?; simpl
  | |- context [decision_function ?m ?x] =>
      destruct (decision_function m x) eqn:?; simpl
  | |- context [as_number ?v] => destruct (as_number v) eqn:?; simpl
  end.

Lemma as_numbers_app_None (l l' : list value) :
  as_numbers l = None → as_numbers (l ++ l') = None.
Proof.
  induction l as [| v l IH]; [done |]. simpl.
  destruct (as_number v); [| done].
  destruct (as_numbers l); [done |]. by rewrite IH.
Qed.

Lemma scorer_not_numbers st d price :
  d !! "price" = Some price →
  as_numbers (fit_prices_all st ++ [price]) = None →
  100 ≤ length (fit_prices_all st ++ [price]) →
  isolation_forest_anomaly d st =
    (Raise TypeError, set_fit_prices_all (fit_prices_all st ++ [price]) st).
Proof.
  intros Hp Hn Hlen. scorer_open Hp. rewrite Hn.
  by destruct (Nat.ltb_spec (length (fit_prices_all st ++ [price])) 100);
    [lia |].
Qed.

(** X11.  Once the corpus, the current price included, holds at least 100
    samples one of which is not a number, the scorer raises TypeError (the
    price stays appended), and so does every later call, whatever is
    appended. *)
Theorem scorer_rejects_non_numbers st d price :
  d !! "price" = Some price →
  as_numbers (fit_prices_all st ++ [price]) = None →
  100 ≤ length (fit_prices_all st ++ [price]) →
  isolation_forest_anomaly d st =
    (Raise TypeError, set_fit_prices_all (fit_prices_all st ++ [price]) st)
  ∧ ∀ d' price',
      d' !! "price" = Some price' →
      (isolation_forest_anomaly d'
         (isolation_forest_anomaly d st).2).1 = Raise TypeError.
Proof.
  intros Hp Hn Hlen. rewrite (scorer_not_numbers _ _ _ Hp Hn Hlen).
  split; [done |]. intros d' price' Hp'.
  rewrite (scorer_not_numbers _ _ _ Hp'); [done | |]; simpl.
  - by apply as_numbers_app_None.
  - rewrite length_app. lia.
Qed.

Lemma np_negative_spec (score : npfloat) :
  np_negative score = true
  ↔ score = NegInf ∨ ∃ q, score = Finite q ∧ (q < 0)%Q.
Proof.
  destruct score as [q | | |]; simpl.
  - rewrite Qgtb_true. split; [eauto | by intros [? | (q' & [= <-] & ?)]].
  - split; [done | by intros [? | (q' & ? & ?)]].
  - split; [by left | done].
  - split; [done | by intros [? | (q' & ? & ?)]].
Qed.

(** X12.  Scoring with a fitted model, no refit being due: the price is
    normalized with the mean and the standard deviation of the corpus as
    it is now, handed to [decision_function] of the current model, and
    flagged exactly when the score is negative; the model is not
    touched. *)
Theorem fitted_scoring st d p xs score :
  d !! "price" = Some (VNum p) →
  as_numbers (fit_prices_all st ++ [VNum p]) = Some xs →
  100 ≤ length xs → length xs mod 1000 ≠ 0 → is_fitted st = true →
  let z := np_divide (p - np_mean xs) (np_std xs) in
  decision_function (isolation_forest st) z = Ok score →
  isolation_forest_anomaly d st =
    (Ok (np_negative score),
     State (high_volume_threshold st) (rapid_price_change_threshold st)
           (transaction_history st) (fit_prices_all st ++ [VNum p])
           true (isolation_forest st) (processed_sequence st)
           (trace st ++ division_trace (np_std xs)
            ++ division_trace (np_std xs) ++ [DecisionFunctionCall z]))
  ∧ (np_negative score = true
     ↔ score = NegInf ∨ ∃ q, score = Finite q ∧ (q < 0)%Q).
Proof.
  intros Hp Hxs Hlen Hmod Hfit z Hscore. split; [| apply np_negative_spec].
  scorer_open Hp. rewrite Hxs, <- (as_numbers_length _ _ Hxs).
  destruct (Nat.ltb_spec (length xs) 100); [lia |].
  destruct (Nat.eqb_spec (length xs mod 1000) 0); [done |].
  unfold bind, np_div_by, division_trace, emit, modify, ret, gets, number.
  fold z.
  destruct (is_zero (np_std xs)); simpl; rewrite Hfit; simpl;
    fold z; rewrite Hscore; simpl; by rewrite <- ?app_assoc, ?Hfit.
Qed.

(** X13.  At a refit the new model scores: when the sample count is a
    multiple of 1000 and [fit] returns a model, that model replaces the
    old one, the model counts as fitted, and the current price is scored
    by the new model (whether a model was fitted before or not). *)
Theorem refit_then_score st d p xs model score :
  d !! "price" = Some (VNum p) →
  as_numbers (fit_prices_all st ++ [VNum p]) = Some xs →
  length xs mod 1000 = 0 →
  let X := map (λ x, np_divide (x - np_mean xs) (np_std xs)) xs in
  let z := np_divide (p - np_mean xs) (np_std xs) in
  fit (isolation_forest st) X = Ok model →
  decision_function model z = Ok score →
  isolation_forest_anomaly d st =
    (Ok (np_negative score),
     State (high_volume_threshold st) (rapid_price_change_threshold st)
           (transaction_history st) (fit_prices_all st ++ [VNum p])
           true model (processed_sequence st)
           (trace st ++ division_trace (np_std xs) ++ [FitCall X]
            ++ division_trace (np_std xs) ++ [DecisionFunctionCall z])).
Proof.
  intros Hp Hxs Hmod X z Hfit Hscore.
  assert (Hpos : 0 < length xs).
  { rewrite (as_numbers_length _ _ Hxs), length_app. simpl. lia. }
  scorer_open Hp. rewrite Hxs, <- (as_numbers_length _ _ Hxs).
  destruct (Nat.ltb_spec (length xs) 100) as [Hlt | _].
  { apply Nat.Div0.mod_divides in Hmod as [c Hc]. lia. }
  rewrite Hmod. simpl.
  unfold bind, np_div_by, division_trace, emit, modify, ret, gets, number.
  fold X z.
  destruct (is_zero (np_std xs)); simpl; fold X; rewrite Hfit; simpl;
    fold z; rewrite Hscore; simpl; by rewrite <- ?app_assoc.
Qed.

(** X14.  An error of the estimator is not swallowed: when [fit] raises
    at a refit, or [decision_function] raises while scoring, the scorer
    raises the same error; the price stays in the corpus, and the fitted
    flag is as before. *)
Theorem estimator_error_propagates st d p xs e :
  d !! "price" = Some (VNum p) →
  as_numbers (fit_prices_all st ++ [VNum p]) = Some xs →
  100 ≤ length xs →
  let X := map (λ x, np_divide (x - np_mean xs) (np_std xs)) xs in
  let z := np_divide (p - np_mean xs) (np_std xs) in
  let r := isolation_forest_anomaly d st in
  (length xs mod 1000 = 0 ∧ fit (isolation_forest st) X = Raise e
   ∨ length xs mod 1000 ≠ 0 ∧ is_fitted st = true
     ∧ decision_function (isolation_forest st) z = Raise e) →
  r.1 = Raise e
  ∧ fit_prices_all r.2 = fit_prices_all st ++ [VNum p]
  ∧ is_fitted r.2 = is_fitted st.
Proof.
  intros Hp Hxs Hlen X z r Hcase. subst r.
  assert (E : ∃ model t, isolation_forest_anomaly d st =
            (Raise e,
             State (high_volume_threshold st)
                   (rapid_price_change_threshold st)
                   (transaction_history st) (fit_prices_all st ++ [VNum p])
                   (is_fitted st) model
                   (processed_sequence st) t)).
  { scorer_open Hp. rewrite Hxs, <- (as_numbers_length _ _ Hxs).
    destruct (Nat.ltb_spec (length xs) 100); [lia |].
    destruct Hcase as [[Hmod Hfit] | (Hmod & Hfitted & Hscore)].
    - rewrite Hmod. simpl.
      unfold bind, np_div_by, emit, modify, ret, gets, raise. fold X.
      destruct (is_zero (np_std xs)); simpl; fold X; rewrite Hfit;
        by eexists _, _.
    - destruct (Nat.eqb_spec (length xs mod 1000) 0); [done |].
      unfold bind, np_div_by, emit, modify, ret, gets, raise, number. fold z.
      destruct (is_zero (np_std xs)); simpl; rewrite Hfitted; simpl;
        fold z; rewrite Hscore; simpl; rewrite <- ?Hfitted;
        by eexists _, _. }
  destruct E as (model & t & ->). done.
Qed.

Lemma scorer_fitted_late d st :
  fitted_late st → fitted_late (isolation_forest_anomaly d st).2.
Proof.
  intros HI. destruct (d !! "price") as [price |] eqn:Hp;
    [| by rewrite (scorer_no_price _ _ Hp)].
  scorer_open Hp.
  assert (Hgrow : length (fit_prices_all st)
                  ≤ length (fit_prices_all st ++ [price]))
    by (rewrite length_app; lia).
  unfold fitted_late in *.
  destruct (Nat.ltb_spec (length (fit_prices_all st ++ [price])) 100)
    as [Hlt | Hge].
  { simpl. intros F. specialize (HI F). lia. }
  destruct (as_numbers (fit_prices_all st ++ [price])) as [xs |].
  2:{ simpl. intros F. specialize (HI F). lia. }
  destruct (Nat.eqb_spec (length (fit_prices_all st ++ [price]) mod 1000) 0)
    as [Hmod | Hmod].
  - assert (Hbig : 1000 ≤ length (fit_prices_all st ++ [price])).
    { apply Nat.Div0.mod_divides in Hmod as [c Hc]. lia. }
    scorer_split; intros; lia.
  - scorer_split; intros F; try done; specialize (HI eq_refl); lia.
Qed.

Lemma process_trade_fitted_late raw st :
  fitted_late st → fitted_late (process_trade raw st).2.
Proof.
  apply (process_trade_keeps (preserves fitted_late)).
  - intros s [] H. exact H.
  - intros e [] H. exact H.
  - intros d _ s. unfold preserves, fitted_late.
    rewrite (high_volume_rule_keeps is_fitted) by (by intros ? []).
    by rewrite (high_volume_rule_keeps fit_prices_all) by (by intros ? []).
  - intros d _ s. unfold preserves, fitted_late.
    rewrite (rapid_price_change_keeps is_fitted) by (by intros ? ? []).
    by rewrite (rapid_price_change_keeps fit_prices_all)
      by (by intros ? ? []).
  - intros d _ s. exact (scorer_fitted_late d s).
Qed.

(** X15.  From a state that satisfies it, the stream keeps the invariant
    that a model is fitted only once the corpus holds 1000 samples; so as
    long as the corpus, the current price included, holds fewer than 1000
    samples the scorer flags nothing: it does not return anomalous,
    whatever else it does, and no model is fitted. *)
Theorem no_flag_before_1000 raws st d price :
  fitted_late st → d !! "price" = Some price →
  let st1 := run raws st in
  length (fit_prices_all st1 ++ [price]) < 1000 →
  let r := isolation_forest_anomaly d st1 in
  r.1 ≠ Ok true ∧ is_fitted r.2 = false.
Proof.
  intros HI Hp st1 Hlen r.
  assert (HI1 : fitted_late st1).
  { revert HI. apply (run_keeps (preserves fitted_late)).
    intros raw _ s. exact (process_trade_fitted_late raw s). }
  assert (Hfit : is_fitted st1 = false).
  { destruct (is_fitted st1) eqn:F; [| done].
    specialize (HI1 F). rewrite length_app in Hlen. lia. }
  subst r.
  destruct (Nat.lt_ge_cases (length (fit_prices_all st1 ++ [price])) 100)
    as [Hlt | Hge].
  { rewrite (scorer_warming _ _ price); [done | done |].
    rewrite length_app in Hlt. simpl in Hlt. lia. }
  destruct (as_numbers (fit_prices_all st1 ++ [price])) as [xs |] eqn:Hxs.
  - pose proof (as_numbers_length _ _ Hxs) as Hl.
    rewrite (scorer_unfitted _ _ _ _ Hp Hxs); [done | lia | | done].
    rewrite Nat.mod_small by lia. lia.
  - by rewrite (scorer_not_numbers _ _ _ Hp Hxs Hge).
Qed.

(** ** The relative change *)

Lemma Qabs_above (t x : Q) : (t < Qabs x ↔ t < x ∨ t < - x)%Q.
Proof.
  apply Qabs_case; intros Hx; split; intros H; lra.
Qed.

(** X16.  The rule is two-sided: for a last price that is a non-zero
    number it fires exactly when the quotient that line 50 computes is
    above the symbol's threshold or below minus the threshold, a fall
    counting like a rise. *)
Theorem rapid_change_two_sided st d symbol p h l x c :
  d !! "symbol" = Some symbol → d !! "price" = Some (VNum p) →
  transaction_history st !! key_of symbol = Some h →
  last h = Some (VNum l) → ¬ (l == 0)%Q →
  number_sub p l = Ok x → number_truediv x l = Ok (Finite c) →
  let t := price_change_threshold st (key_of symbol) in
  (rapid_price_change d st).1 = Ok true ↔ (t < c ∨ c < - t)%Q.
Proof.
  intros Hy Hp Hh Hl Hz Hx Hc t.
  rewrite (rapid_price_change_next _ _ _ _ _ _ _ _ Hy Hp Hh Hl Hz Hx Hc).
  cbn [fst float_abs float_gt]. fold t.
  assert (Hok : ∀ b : bool, Ok b = Ok true ↔ b = true)
    by (intros b; split; [by intros [= ->] | by intros ->]).
  rewrite Hok, Qgtb_true, Qabs_above.
  split; intros [H | H]; [left | right | left | right]; lra.
Qed.

End Further.

(** * The pipeline on concrete payloads *)

Section Concrete.

Import Sample.

Local Abbreviation rule1 := (high_volume_rule (LIB := libraries)).
Local Abbreviation rule2 := (rapid_price_change (LIB := libraries)).
Local Abbreviation scorer := (isolation_forest_anomaly (LIB := libraries)).

(** The scenario of the specification: a duplicate of sequence 1, then a
    6% move on sequence 2. *)
Example scenario_duplicate_then_move :
  produced
    (trace (feed [PyDict (trade 1 "X" 100 50); PyDict (trade 1 "X" 100 50);
                  PyDict (trade 2 "X" 106 50)] start))
  = [Message (VNum 2) (trade 2 "X" 106 50) [RapidPriceChange]].
Proof. vm_compute. reflexivity. Qed.

(** The scenario of the specification: a size of 20000 under the default
    threshold. *)
Example scenario_high_volume :
  produced (trace (feed [PyDict (trade 3 "Y" 50 20000)] start))
  = [Message (VNum 3) (trade 3 "Y" 50 20000) [HighVolume]].
Proof. vm_compute. reflexivity. Qed.

(** One unit above the volume threshold fires, 5.0001% fires. *)
Example boundaries_strictly_above :
  (rule1 (trade 2 "X" 105 10001) after_first_trade).1 = Ok true
  ∧ (rule2 (trade 2 "X" (1050001 # 10000) 50) after_first_trade).1 = Ok true.
Proof. split; vm_compute; reflexivity. Qed.

(** C1 at a concrete input: the same trade twice. *)
Lemma duplicate_sequence_dropped_witness :
  let raw := PyDict (trade 1 "X" 100 50) in
  let st1 := (process raw start).2 in
  field (LIB := libraries) "sequence" raw = Some (VNum 1)
  ∧ process raw st1 = (Ok tt, st1)
  ∧ at_most_one_more start st1.
Proof.
  intros raw st1.
  assert (H : field (LIB := libraries) "sequence" raw = Some (VNum 1))
    by reflexivity.
  split; [exact H |].
  exact (duplicate_sequence_dropped raw raw (VNum 1) (VNum 1) start
           H H eq_refl).
Defined.

(** C2: after a first trade at price 0 the rule raises on the next trade
    of the symbol, and so does [process_trade]; neither returns false. *)
Lemma zero_last_price_not_closed :
  let d := trade 2 "X" 5 1 in
  history_of after_zero_price (KStr "X") = [VNum 0]
  ∧ (rule2 d after_zero_price).1 = Raise ZeroDivisionError
  ∧ (rule2 d after_zero_price).1 ≠ Ok false
  ∧ (process (PyDict d) after_zero_price).1 = Raise ZeroDivisionError.
Proof. vm_compute. by repeat split. Qed.

(** C2, amended, at that input. *)
Lemma zero_last_price_raises_witness :
  let d := trade 2 "X" 5 1 in
  transaction_history after_zero_price !! key_of (VStr "X") = Some [VNum 0]
  ∧ (0 == 0)%Q
  ∧ number_sub (Libraries := libraries) 5 0 = Ok (PyInt 5)
  ∧ rule2 d after_zero_price = (Raise ZeroDivisionError, after_zero_price).
Proof.
  intros d.
  assert (Hh : transaction_history after_zero_price !! key_of (VStr "X")
               = Some [VNum 0]) by (vm_compute; reflexivity).
  assert (Hz : (0 == 0)%Q) by reflexivity.
  split; [exact Hh |]. split; [exact Hz |]. split; [reflexivity |].
  exact (proj1 (zero_last_price_raises after_zero_price d (VStr "X") 5
                  [VNum 0] 0 eq_refl eq_refl Hh eq_refl Hz)).
Defined.

(** C3: on a corpus of 100 equal prices the scorer divides by the zero
    standard deviation. *)
Lemma zero_std_not_closed :
  let d := trade 100 "X" 5 1 in
  as_numbers (fit_prices_all (constant_corpus 99) ++ [VNum 5])
  = Some (replicate 100 5%Q)
  ∧ (std (replicate 100 5%Q) == 0)%Q
  ∧ trace (constant_corpus 99) = []
  ∧ trace (scorer d (constant_corpus 99)).2 = [DivideWarning].
Proof. vm_compute. by repeat split. Qed.

(** C3, amended, at that input. *)
Lemma zero_std_divides_witness :
  let d := trade 100 "X" 5 1 in
  let xs := replicate 100 5%Q in
  as_numbers (fit_prices_all (constant_corpus 99) ++ [VNum 5]) = Some xs
  ∧ (np_std (Libraries := libraries) xs == 0)%Q
  ∧ 100 ≤ length xs
  ∧ ∃ t, trace (scorer d (constant_corpus 99)).2
         = trace (constant_corpus 99) ++ DivideWarning :: t.
Proof.
  intros d xs.
  assert (Hxs : as_numbers (fit_prices_all (constant_corpus 99) ++ [VNum 5])
                = Some xs) by (vm_compute; reflexivity).
  assert (Hz : (np_std (Libraries := libraries) xs == 0)%Q)
    by (vm_compute; reflexivity).
  assert (Hlen : 100 ≤ length xs) by (apply Nat.leb_le; reflexivity).
  split; [exact Hxs |]. split; [exact Hz |]. split; [exact Hlen |].
  exact (proj1 (zero_std_divides (constant_corpus 99) d 5 xs
                  eq_refl Hxs Hz Hlen)).
Defined.

(** C4: a record that lacks symbol, price and size is recorded as
    processed, and the KeyError reaches the caller. *)
Lemma malformed_record_not_dropped :
  let raw := PyDict {[ "sequence" := VNum 7 ]} in
  malformed (LIB := libraries) raw = true
  ∧ (process raw start).1 = Raise (KeyError "size")
  ∧ processed_sequence start = ∅
  ∧ processed_sequence (process raw start).2 = {[ KNum 7 1 ]}.
Proof. vm_compute. by repeat split. Qed.

(** C4, amended, at a text that is not JSON. *)
Lemma malformed_payload_witness :
  malformed (LIB := libraries) (PyStr "oops") = true
  ∧ produced (trace (process (PyStr "oops") start).2) = []
  ∧ ∃ s, PyStr "oops" = PyStr s
       ∧ process (PyStr "oops") start
         = (Ok tt, State (LIB := libraries) ∅ ∅ ∅ [] false IsolationForest
                         ∅ [PrintFailedToParse s]).
Proof.
  assert (Hm : malformed (LIB := libraries) (PyStr "oops") = true)
    by reflexivity.
  split; [exact Hm |].
  destruct (malformed_payload start (PyStr "oops") Hm) as (Hp & Hd & _).
  split; [exact Hp |]. exists "oops". split; [reflexivity |].
  exact (Hd "oops" eq_refl eq_refl).
Defined.

(** C4: an integer literal beyond the digit limit of int is not a decode
    failure; the ValueError reaches the caller. *)
Example digit_limit_not_caught :
  json_loads (Libraries := libraries) (ones 4301) = LoadsRaises ValueError
  ∧ process (PyStr (ones 4301)) start = (Raise ValueError, start).
Proof.
  assert (H : json_loads (Libraries := libraries) (ones 4301)
              = LoadsRaises ValueError) by (vm_compute; reflexivity).
  split; [exact H |]. unfold process, process_trade. by rewrite H.
Qed.

(** C5 at a concrete input: a first price of one million. *)
Lemma warm_up_never_flags_witness :
  let d := trade 1 "X" 1000000 1 in
  d !! "price" = Some (VNum 1000000)
  ∧ length (fit_prices_all start ++ [VNum 1000000]) < 100
  ∧ scorer d start = (Ok false, set_fit_prices_all [VNum 1000000] start).
Proof.
  intros d.
  assert (Hlen : length (fit_prices_all start ++ [VNum 1000000]) < 100)
    by (apply Nat.ltb_lt; reflexivity).
  split; [reflexivity |]. split; [exact Hlen |].
  exact (warm_up_never_flags start d (VNum 1000000) eq_refl Hlen).
Defined.

(** C6: with a price that is text in the corpus the 1000th sample brings
    no refit; the scorer raises TypeError before it.  Such a price gets
    there as the first price of its symbol. *)
Lemma refit_skipped_on_text_price :
  let d := trade 1000 "X" 5 1 in
  let st := text_corpus 998 in
  fit_prices_all (feed [PyDict (text_price_trade 1 "X" "n/a")] start)
  = [VStr "n/a"]
  ∧ length (fit_prices_all st ++ [VNum 5]) = 1000
  ∧ refit_due 1000 = true
  ∧ (scorer d st).1 = Raise TypeError
  ∧ fit_calls (trace (scorer d st).2) = 0
  ∧ is_fitted (scorer d st).2 = false.
Proof. vm_compute. by repeat split. Qed.

Lemma alternating_numbers_fit : Forall fits_int64 alternating_numbers.
Proof.
  unfold alternating_numbers. apply Forall_app. split.
  - apply Forall_fmap, Forall_forall. intros i _. unfold compose.
    destruct (Nat.even i); reflexivity.
  - apply Forall_singleton. reflexivity.
Qed.

(** C6, amended, at a concrete input: the 1000th sample. *)
Lemma retrain_cadence_witness :
  let d := trade 1000 "X" 6 1 in
  let st := alternating_corpus 999 in
  as_numbers (fit_prices_all st ++ [VNum 6]) = Some alternating_numbers
  ∧ Forall fits_int64 alternating_numbers
  ∧ fit_calls (trace (scorer d st).2) = 1.
Proof.
  intros d st.
  assert (Hxs : as_numbers (fit_prices_all st ++ [VNum 6])
                = Some alternating_numbers) by (vm_compute; reflexivity).
  split; [exact Hxs |]. split; [exact alternating_numbers_fit |].
  exact (proj1 (retrain_cadence st d 6 alternating_numbers eq_refl Hxs
                  alternating_numbers_fit)).
Defined.

(** C7 at a concrete input: symbol X first seen after a trade of Y. *)
Lemma first_sighting_never_fires_witness :
  let raws := [PyDict (trade 3 "Y" 50 20000)] in
  let d := trade 4 "X" 1000000 1 in
  (∀ raw s, raw ∈ raws → field (LIB := libraries) "symbol" raw = Some s →
            key_of s ≠ key_of (VStr "X"))
  ∧ (rule2 d (run raws initial_state)).1 = Ok false.
Proof.
  intros raws d.
  assert (H : ∀ raw s, raw ∈ raws →
                field (LIB := libraries) "symbol" raw = Some s →
                key_of s ≠ key_of (VStr "X")).
  { intros raw s Hin. apply list_elem_of_singleton in Hin as ->.
    intros [= <-]. discriminate. }
  split; [exact H |].
  exact (f_equal fst
           (proj1 (first_sighting_never_fires raws d (VStr "X")
                     (VNum 1000000) H eq_refl eq_refl))).
Defined.

(** C8: a change strictly above 5% that does not fire.  From 2 * 10^18 to
    2.1 * 10^18 + 1 the change is above 5/100, and from 7.21 to 7.5705 it
    is above the float 0.05 itself; in both cases the quotient of line 50
    rounds to the float 0.05, which is not above the threshold. *)
Lemma rounded_change_not_flagged :
  let l := 2000000000000000000%Q in
  let p := 2100000000000000001%Q in
  let a := float_literal (721 # 100) in
  let b := float_literal (75705 # 10000) in
  history_of after_large_trade (KStr "X") = [VNum l]
  ∧ (5 # 100 < (p - l) / l)%Q
  ∧ (rule2 (trade 2 "X" p 1) after_large_trade).1 = Ok false
  ∧ history_of after_decimal_trade (KStr "X") = [VNum a]
  ∧ (default_price_change_threshold < (b - a) / a)%Q
  ∧ (rule2 (trade 2 "X" b 1) after_decimal_trade).1 = Ok false.
Proof. vm_compute. by repeat split. Qed.

(** C8, amended, at the boundaries: a size of exactly 10000, and a move
    from 100 to 105, whose quotient is the float 0.05. *)
Lemma threshold_boundaries_witness :
  let d := trade 2 "X" 105 10000 in
  transaction_history after_first_trade !! key_of (VStr "X")
  = Some [VNum 100]
  ∧ ¬ (100 == 0)%Q
  ∧ number_sub (Libraries := libraries) 105 100 = Ok (PyInt 5)
  ∧ number_truediv (Libraries := libraries) (PyInt 5) 100
    = Ok (Finite default_price_change_threshold)
  ∧ (rule1 d after_first_trade).1 = Ok false
  ∧ (rule2 d after_first_trade).1 = Ok false.
Proof.
  intros d.
  assert (Hh : transaction_history after_first_trade !! key_of (VStr "X")
               = Some [VNum 100]) by (vm_compute; reflexivity).
  assert (Hz : ¬ (100 == 0)%Q) by (intros H; discriminate H).
  assert (Hx : number_sub (Libraries := libraries) 105 100 = Ok (PyInt 5))
    by reflexivity.
  assert (Hc : number_truediv (Libraries := libraries) (PyInt 5) 100
               = Ok (Finite default_price_change_threshold))
    by (vm_compute; reflexivity).
  split; [exact Hh |]. split; [exact Hz |].
  split; [exact Hx |]. split; [exact Hc |].
  destruct (threshold_boundaries after_first_trade d (VStr "X") 10000
              eq_refl eq_refl) as (Hv & _ & _ & Hr).
  split; [apply Hv; vm_compute; reflexivity |].
  destruct (Hr 105%Q [VNum 100] 100%Q (PyInt 5)
              (Finite default_price_change_threshold)
              eq_refl Hh eq_refl Hz Hx Hc) as (_ & Hb & _).
  refine (proj1 (Hb default_price_change_threshold eq_refl) _).
  vm_compute. reflexivity.
Defined.

(** C9: on a symbol without an entry the rule stores the default in the
    threshold map. *)
Lemma high_volume_rule_stores_default :
  let d := trade 3 "Y" 50 20000 in
  high_volume_threshold start = ∅
  ∧ high_volume_threshold (rule1 d start).2 = {[ KStr "Y" := 10000%Q ]}
  ∧ (rule1 d start).2 ≠ start.
Proof.
  intros d. split; [reflexivity |]. split; [vm_compute; reflexivity |].
  intros H. apply (f_equal (λ st, high_volume_threshold st !! KStr "Y")) in H.
  vm_compute in H. discriminate H.
Qed.

(** C10: after a first trade at price 0 a trade at price -5 raises in the
    second detector; the price reaches neither the history nor the corpus,
    and the scorer is not called. *)
Lemma price_after_zero_not_recorded :
  let r := process (PyDict (trade 2 "X" (-5) 1)) after_zero_price in
  fit_prices_all after_zero_price = [VNum 0]
  ∧ r.1 = Raise ZeroDivisionError
  ∧ history_of r.2 (KStr "X") = [VNum 0]
  ∧ fit_prices_all r.2 = [VNum 0].
Proof. vm_compute. by repeat split. Qed.

(** C10: nor is a price too large for a float recorded after a last
    price of 100: the division of line 50 raises OverflowError. *)
Example price_beyond_float_not_recorded :
  let r := process (PyDict (trade 2 "X" (inject_Z (10 ^ 400)) 1))
             after_first_trade in
  r.1 = Raise OverflowError
  ∧ history_of r.2 (KStr "X") = [VNum 100]
  ∧ fit_prices_all r.2 = [VNum 100].
Proof. vm_compute. by repeat split. Qed.

(** C10, amended, at a first trade with a negative price and size. *)
Lemma no_value_validation_witness :
  let d := trade 1 "X" (-5) (-3) in
  let st' := (process (PyDict d) start).2 in
  (key_of (VNum 1) ∉ processed_sequence start)
  ∧ history_of start (key_of (VStr "X")) = []
  ∧ history_of st' (key_of (VStr "X")) = [VNum (-5)]
  ∧ fit_prices_all st' = [VNum (-5)]
  ∧ key_of (VNum 1) ∈ processed_sequence st'.
Proof.
  intros d st'.
  assert (Hin : key_of (VNum 1) ∉ processed_sequence start)
    by apply not_elem_of_empty.
  split; [exact Hin |]. split; [reflexivity |].
  exact (no_value_validation start d (VNum 1) (VStr "X") (-5) (-3)
           eq_refl eq_refl eq_refl eq_refl Hin (or_introl eq_refl)).
Defined.

End Concrete.

(** * The further properties on concrete payloads *)

Section FurtherConcrete.

Import Sample.

Local Abbreviation rule2 := (rapid_price_change (LIB := libraries)).
Local Abbreviation scorer := (isolation_forest_anomaly (LIB := libraries)).

(** X1 at a concrete input: 150 trades of one symbol. *)
Lemma histories_stay_bounded_witness :
  let raws := map (λ i, PyDict (trade (Z.of_nat i) "X" 100 1)) (seq 0 150) in
  histories_bounded start
  ∧ histories_bounded (run raws start)
  ∧ length (history_of (run raws start) (KStr "X")) = 100.
Proof.
  intros raws.
  assert (H : histories_bounded start).
  { intros k h Hk. unfold start, initial_state in Hk. simpl in Hk.
    by rewrite lookup_empty in Hk. }
  split; [exact H |].
  split; [exact (histories_stay_bounded raws start H) |].
  vm_compute. reflexivity.
Defined.

(** X3 at a concrete input: the second price of a symbol. *)
Lemma history_window_witness :
  let d := trade 2 "X" 105 50 in
  transaction_history after_first_trade !! key_of (VStr "X")
  = Some [VNum 100]
  ∧ ¬ (100 == 0)%Q
  ∧ history_of (rule2 d after_first_trade).2 (key_of (VStr "X"))
    = [VNum 100; VNum 105].
Proof.
  intros d.
  assert (Hh : transaction_history after_first_trade !! key_of (VStr "X")
               = Some [VNum 100]) by (vm_compute; reflexivity).
  assert (Hz : ¬ (100 == 0)%Q) by (intros H; discriminate H).
  assert (Hlen : length [VNum 100] ≤ 100) by (apply Nat.leb_le; reflexivity).
  assert (Hx : number_sub (Libraries := libraries) 105 100 = Ok (PyInt 5))
    by reflexivity.
  assert (Hc : number_truediv (Libraries := libraries) (PyInt 5) 100
               = Ok (Finite default_price_change_threshold))
    by (vm_compute; reflexivity).
  split; [exact Hh |]. split; [exact Hz |].
  refine (proj1 (history_window after_first_trade d (VStr "X") 105
                   [VNum 100] 100 (PyInt 5)
                   (Finite default_price_change_threshold)
                   eq_refl eq_refl Hh eq_refl Hz Hx Hc Hlen) _).
  apply Nat.ltb_lt. reflexivity.
Defined.

(** X6 at a concrete input: the sequences 1 and 2/2. *)
Lemma numeric_sequences_compare_witness :
  let d := trade 1 "X" 100 50 in
  (key_of (VNum (2 # 2)) ∉ processed_sequence start)
  ∧ key_of (VNum (2 # 2)) ∈ processed_sequence (process (PyDict d) start).2.
Proof.
  intros d.
  assert (Hb : key_of (VNum (2 # 2)) ∉ processed_sequence start)
    by apply not_elem_of_empty.
  split; [exact Hb |].
  apply (numeric_sequences_compare start d 1 (2 # 2) eq_refl Hb).
  reflexivity.
Defined.

(** X9 at a concrete input: a record without symbol and price. *)
Lemma missing_field_error_witness :
  let d : gmap string value := {[ "sequence" := VNum 7; "size" := VNum 1 ]} in
  first_missing d = Some "symbol"
  ∧ (process (PyDict d) start).1 = Raise (KeyError "symbol").
Proof.
  intros d.
  assert (Hk : first_missing d = Some "symbol") by reflexivity.
  split; [exact Hk |].
  refine (proj1 (missing_field_error start d "symbol" Hk _ _)).
  - intros sequence _. apply not_elem_of_empty.
  - intros size Hs. vm_compute in Hs. injection Hs as <-. by eexists.
Defined.

(** X10 at a concrete input: a first price that is text. *)
Lemma string_price_poisons_symbol_witness :
  let d := text_price_trade 1 "X" "n/a" in
  let st' := (rule2 d start).2 in
  history_of start (key_of (VStr "X")) = []
  ∧ (rule2 d start).1 = Ok false
  ∧ rule2 (trade 2 "X" 100 50) st' = (Raise TypeError, st').
Proof.
  intros d st'.
  assert (Hh : history_of start (key_of (VStr "X")) = []) by reflexivity.
  split; [exact Hh |].
  destruct (string_price_poisons_symbol start d (VStr "X") "n/a"
              eq_refl eq_refl Hh) as (H1 & _ & H3).
  split; [exact H1 |].
  exact (H3 (trade 2 "X" 100 50) (VStr "X") (VNum 100)
            eq_refl eq_refl eq_refl).
Defined.

(** X11 at a concrete input: text as the 100th sample. *)
Lemma scorer_rejects_non_numbers_witness :
  let d := text_price_trade 100 "X" "n/a" in
  let st := constant_corpus 99 in
  as_numbers (fit_prices_all st ++ [VStr "n/a"]) = None
  ∧ 100 ≤ length (fit_prices_all st ++ [VStr "n/a"])
  ∧ (scorer d st).1 = Raise TypeError.
Proof.
  intros d st.
  assert (Hn : as_numbers (fit_prices_all st ++ [VStr "n/a"]) = None)
    by (vm_compute; reflexivity).
  assert (Hlen : 100 ≤ length (fit_prices_all st ++ [VStr "n/a"]))
    by (apply Nat.leb_le; vm_compute; reflexivity).
  split; [exact Hn |]. split; [exact Hlen |].
  exact (f_equal fst
           (proj1 (scorer_rejects_non_numbers st d (VStr "n/a")
                     eq_refl Hn Hlen))).
Defined.

(** The sample estimator accepts what was normalized by a non-zero
    standard deviation, and rejects what was normalized by zero. *)
Lemma fit_sample_finite (m : list npfloat) (mu s : Q) (xs : list Q) :
  is_zero s = false →
  fit_sample m (map (λ x, np_divide (x - mu) s) xs)
  = Ok (map (λ x, np_divide (x - mu) s) xs).
Proof.
  intros Hs. unfold fit_sample.
  assert (H : forallb finite (map (λ x, np_divide (x - mu) s) xs) = true).
  { induction xs as [| x xs IH]; [done |]. simpl. rewrite IH.
    unfold np_divide. by rewrite Hs. }
  by rewrite H.
Qed.

Lemma fit_sample_zero_std (m : list npfloat) (mu s x : Q) (xs : list Q) :
  is_zero s = true →
  fit_sample m (map (λ x, np_divide (x - mu) s) (x :: xs))
  = Raise EstimatorError.
Proof.
  intros Hs. unfold fit_sample. simpl. unfold np_divide at 1. rewrite Hs.
  by destruct (x - mu ?= 0)%Q.
Qed.

(** X12 at a concrete input: the 1001st sample, scored by a fitted
    model. *)
Lemma fitted_scoring_witness :
  let d := trade 1001 "X" 5 1 in
  let st := fitted_corpus 1000 in
  let xs := alternating_numbers ++ [5%Q] in
  as_numbers (fit_prices_all st ++ [VNum 5]) = Some xs
  ∧ is_fitted st = true
  ∧ ∃ score,
      decision_function (Libraries := libraries) (isolation_forest st)
        (np_divide (5 - np_mean (Libraries := libraries) xs)
           (np_std (Libraries := libraries) xs)) = Ok score
      ∧ (scorer d st).1 = Ok (np_negative score).
Proof.
  intros d st xs.
  assert (Hxs : as_numbers (fit_prices_all st ++ [VNum 5]) = Some xs)
    by (vm_compute; reflexivity).
  assert (Hfit : is_fitted st = true) by reflexivity.
  assert (Hlen : 100 ≤ length xs) by (apply Nat.leb_le; vm_compute; reflexivity).
  assert (Hmod : length xs mod 1000 ≠ 0)
    by (intros H; vm_compute in H; discriminate H).
  split; [exact Hxs |]. split; [exact Hfit |].
  assert (Hscore : ∃ score,
            decision_function (Libraries := libraries) (isolation_forest st)
              (np_divide (5 - np_mean (Libraries := libraries) xs)
                 (np_std (Libraries := libraries) xs)) = Ok score).
  { eexists. vm_compute. reflexivity. }
  destruct Hscore as [score Hscore]. exists score.
  split; [exact Hscore |].
  exact (f_equal fst
           (proj1 (fitted_scoring st d 5 xs score
                     eq_refl Hxs Hlen Hmod Hfit Hscore))).
Defined.

(** X13 at a concrete input: the 1000th sample. *)
Lemma refit_then_score_witness :
  let d := trade 1000 "X" 6 1 in
  let st := alternating_corpus 999 in
  let xs := alternating_numbers in
  as_numbers (fit_prices_all st ++ [VNum 6]) = Some xs
  ∧ length xs mod 1000 = 0
  ∧ is_fitted st = false
  ∧ is_fitted (scorer d st).2 = true.
Proof.
  intros d st xs.
  assert (Hxs : as_numbers (fit_prices_all st ++ [VNum 6]) = Some xs)
    by (vm_compute; reflexivity).
  assert (Hmod : length xs mod 1000 = 0) by (vm_compute; reflexivity).
  assert (Hs : is_zero (std xs) = false) by (vm_compute; reflexivity).
  split; [exact Hxs |]. split; [exact Hmod |]. split; [reflexivity |].
  assert (Hscore : ∃ score, ∀ model : list npfloat,
            score_sample model (np_divide (6 - mean xs) (std xs))
            = Ok score).
  { eexists. intros model. vm_compute. reflexivity. }
  destruct Hscore as [score Hscore].
  exact (f_equal (λ r, is_fitted r.2)
           (refit_then_score st d 6 xs _ score eq_refl Hxs Hmod
              (fit_sample_finite [] (mean xs) (std xs) xs Hs)
              (Hscore _))).
Defined.

(** X14 at a concrete input: a refit on 1000 equal prices, which the
    sample estimator rejects. *)
Lemma estimator_error_propagates_witness :
  let d := trade 1000 "X" 5 1 in
  let st := constant_corpus 999 in
  let xs := replicate 1000 5%Q in
  as_numbers (fit_prices_all st ++ [VNum 5]) = Some xs
  ∧ is_zero (std xs) = true
  ∧ (scorer d st).1 = Raise EstimatorError
  ∧ is_fitted (scorer d st).2 = false.
Proof.
  intros d st xs.
  assert (Hxs : as_numbers (fit_prices_all st ++ [VNum 5]) = Some xs)
    by (vm_compute; reflexivity).
  assert (Hlen : 100 ≤ length xs) by (apply Nat.leb_le; vm_compute; reflexivity).
  assert (Hmod : length xs mod 1000 = 0) by (vm_compute; reflexivity).
  assert (Hs : is_zero (std xs) = true) by (vm_compute; reflexivity).
  split; [exact Hxs |]. split; [exact Hs |].
  destruct (estimator_error_propagates st d 5 xs EstimatorError
              eq_refl Hxs Hlen
              (or_introl (conj Hmod
                 (fit_sample_zero_std [] (mean xs) (std xs) 5
                    (replicate 999 5%Q) Hs))))
    as (H1 & _ & H3).
  split; [exact H1 | exact H3].
Defined.

(** X15 at a concrete input: an extreme price as the second sample. *)
Lemma no_flag_before_1000_witness :
  let raws := [PyDict (trade 1 "X" 100 50)] in
  let d := trade 2 "X" 1000000 50 in
  fitted_late start
  ∧ length (fit_prices_all (run raws start) ++ [VNum 1000000]) < 1000
  ∧ (scorer d (run raws start)).1 ≠ Ok true.
Proof.
  intros raws d.
  assert (HI : fitted_late start) by (intros H; discriminate H).
  assert (Hlen : length (fit_prices_all (run raws start) ++ [VNum 1000000])
                 < 1000) by (apply Nat.ltb_lt; vm_compute; reflexivity).
  split; [exact HI |]. split; [exact Hlen |].
  exact (proj1 (no_flag_before_1000 raws start d (VNum 1000000)
                  HI eq_refl Hlen)).
Defined.

(** X16 at a concrete input: a fall from 100 to 94. *)
Lemma rapid_change_two_sided_witness :
  let d := trade 2 "X" 94 50 in
  let c := float_literal (- 6 # 100) in
  transaction_history after_first_trade !! key_of (VStr "X")
  = Some [VNum 100]
  ∧ ¬ (100 == 0)%Q
  ∧ number_sub (Libraries := libraries) 94 100 = Ok (PyInt (- 6))
  ∧ number_truediv (Libraries := libraries) (PyInt (- 6)) 100
    = Ok (Finite c)
  ∧ (rule2 d after_first_trade).1 = Ok true.
Proof.
  intros d c.
  assert (Hh : transaction_history after_first_trade !! key_of (VStr "X")
               = Some [VNum 100]) by (vm_compute; reflexivity).
  assert (Hz : ¬ (100 == 0)%Q) by (intros H; discriminate H).
  assert (Hx : number_sub (Libraries := libraries) 94 100 = Ok (PyInt (- 6)))
    by reflexivity.
  assert (Hc : number_truediv (Libraries := libraries) (PyInt (- 6)) 100
               = Ok (Finite c))
    by (vm_compute; reflexivity).
  split; [exact Hh |]. split; [exact Hz |].
  split; [exact Hx |]. split; [exact Hc |].
  apply (rapid_change_two_sided after_first_trade d (VStr "X") 94
           [VNum 100] 100 (PyInt (- 6)) c eq_refl eq_refl Hh eq_refl Hz
           Hx Hc).
  right. vm_compute. reflexivity.
Defined.

End FurtherConcrete.
